(** * Subscription report processing: a shallow embedding of
    [subscription_report_process.py] (class [Clients]) and the properties
    its specification states about it.

    The embedding starts where [_split_line] ends: a line of the report is
    taken as its four comma separated fields, already read as integers, and
    the date field as the three numbers of its text [MM/DD/YYYY], two
    digits for the month and for the day, so that the characters from
    index 6 on, which [_split_line] reads as the year, are the year of the
    date.  The text of a line and of the file is modelled apart, in [Text],
    and related to this embedding.

    Python integers are [Z].  The two dictionaries are association lists in
    insertion order, the order in which a Python dict is iterated.  The
    three-slot list [_last_three_years] is a list updated by index.  A
    method is a function on the object's state that returns the new state
    together with either a value or the exception it raised: a list or a
    dictionary the source mutates in place is a field of that state. *)

From stdpp Require Import base list strings pretty.
From Stdlib Require Import ZArith Lia Ascii.

Open Scope Z_scope.

(** ** Exceptions and results *)

(** The two exception classes of the module, and the two built-in ones its
    methods can let escape: [KeyError] from a dictionary subscript and
    [ValueError] from [datetime.strptime]. *)
Inductive exception : Set :=
  | InvalidDateTypeError
  | FileNotProcessedError
  | KeyError (key : Z)
  | ValueError.

(** The class name Python reports for an exception. *)
Definition exception_name (e : exception) : string :=
  match e with
  | InvalidDateTypeError => "InvalidDateTypeError"
  | FileNotProcessedError => "FileNotProcessedError"
  | KeyError _ => "KeyError"
  | ValueError => "ValueError"
  end.

Inductive outcome (A : Type) : Type :=
  | Return (a : A)
  | Raise (e : exception).
Arguments Return {A} a.
Arguments Raise {A} e.

#[global] Instance outcome_ret : MRet outcome := @Return.
#[global] Instance outcome_bind : MBind outcome := λ A B f m,
  match m with
  | Return a => f a
  | Raise e => Raise e
  end.

(** ** Dates: [datetime.datetime.strptime(s, "%m/%d/%Y")] *)

(** The text [MM/DD/YYYY] of a transaction date, as its three numbers. *)
Record date : Set := mkdate { mm : Z; dd : Z; yyyy : Z }.

(** The proleptic Gregorian calendar of Python's [datetime] module. *)
Module datetime.

Definition MINYEAR : Z := 1.
Definition MAXYEAR : Z := 9999.

Definition _is_leap (year : Z) : bool :=
  (year mod 4 =? 0) && (negb (year mod 100 =? 0) || (year mod 400 =? 0)).

Definition _days_before_year (year : Z) : Z :=
  let y := year - 1 in
  y * 365 + y / 4 - y / 100 + y / 400.

Definition _DAYS_IN_MONTH : list Z :=
  [-1; 31; 28; 31; 30; 31; 30; 31; 31; 30; 31; 30; 31].

Definition _DAYS_BEFORE_MONTH : list Z :=
  [-1; 0; 31; 59; 90; 120; 151; 181; 212; 243; 273; 304; 334].

Definition _days_in_month (year month : Z) : Z :=
  if (month =? 2) && _is_leap year then 29
  else _DAYS_IN_MONTH !!! Z.to_nat month.

Definition _days_before_month (year month : Z) : Z :=
  _DAYS_BEFORE_MONTH !!! Z.to_nat month
  + (if (2 <? month) && _is_leap year then 1 else 0).

Definition _ymd2ord (year month day : Z) : Z :=
  _days_before_year year + _days_before_month year month + day.

(** What the constructor of a [datetime] checks. *)
Definition _check_date_fields (d : date) : bool :=
  (MINYEAR <=? yyyy d) && (yyyy d <=? MAXYEAR)
  && (1 <=? mm d) && (mm d <=? 12)
  && (1 <=? dd d) && (dd d <=? _days_in_month (yyyy d) (mm d)).

(** [strptime(s, "%m/%d/%Y")]: a datetime at midnight, stood for by its
    day ordinal, or [ValueError]. *)
Definition strptime (d : date) : outcome Z :=
  if _check_date_fields d then Return (_ymd2ord (yyyy d) (mm d) (dd d))
  else Raise ValueError.

(** [(a - b).days] for two datetimes at midnight. *)
Definition days (a b : Z) : Z := a - b.

End datetime.

(** ** Dictionaries with integer keys *)

(** A Python dict whose keys are integers: the pairs in insertion order. *)
Module dict.
Section ops.
Context {V : Type}.

Definition t : Type := list (Z * V).

(** [d.get(k)] *)
Fixpoint get (k : Z) (d : t) : option V :=
  match d with
  | [] => None
  | (k', v) :: d' => if k =? k' then Some v else get k d'
  end.

(** [k in d] *)
Definition mem (k : Z) (d : t) : bool :=
  match get k d with Some _ => true | None => false end.

(** [d[k]] *)
Definition item (k : Z) (d : t) : outcome V :=
  match get k d with Some v => Return v | None => Raise (KeyError k) end.

(** [d[k] = v]: a present key keeps its place, a new one goes last. *)
Fixpoint set (k : Z) (v : V) (d : t) : t :=
  match d with
  | [] => [(k, v)]
  | (k', v') :: d' => if k =? k' then (k, v) :: d' else (k', v') :: set k v d'
  end.

(** [list(d)] *)
Definition keys (d : t) : list Z := d.*1.

(** [list(d.values())] *)
Definition values (d : t) : list V := d.*2.
End ops.
Arguments t : clear implicits.
End dict.

(** ** The state of a [Clients] object *)

(** The subscription type, stored by the source as one of four strings. *)
Inductive sub_type : Set := one_off | daily | monthly | yearly.

#[global] Instance sub_type_eq_dec : EqDecision sub_type.
Proof. solve_decision. Defined.

Definition type_str (type_ : sub_type) : string :=
  match type_ with
  | one_off => "one-off"
  | daily => "daily"
  | monthly => "monthly"
  | yearly => "yearly"
  end.

(** A value of [_client_dict]: the list [[type, duration, 'month/day/year']]. *)
Record line_item : Set := mkitem {
  item_type : sub_type;      (* [0] *)
  item_duration : Z;         (* [1] *)
  item_date : date           (* [2] *)
}.

Record Clients : Type := mkClients {
  _client_dict : dict.t line_item;
  _year_dict : dict.t Z;
  _last_three_years : list Z
}.

(** The fields as [__init__] sets them, before [_process] runs. *)
Definition __init__ : Clients :=
  {| _client_dict := []; _year_dict := []; _last_three_years := [0; 0; 0] |}.

(** A line of the report: [Id,Subscription ID,Amount (USD),Transaction Date]. *)
Record line : Set := mkline {
  row_id : Z;
  subscription_id : Z;
  amount_usd : Z;
  transaction_date : date
}.

(** ** Methods: state passing with exceptions *)

(** A method body: from the object's state to the state it leaves and what
    it returned or raised.  A raise keeps the mutations made before it. *)
Definition method (A : Type) : Type := Clients → Clients * outcome A.

#[global] Instance method_ret : MRet method := λ A a self, (self, Return a).
#[global] Instance method_bind : MBind method := λ A B f m self,
  match m self with
  | (self', Return a) => f a self'
  | (self', Raise e) => (self', Raise e)
  end.

Definition gets {A : Type} (f : Clients → A) : method A :=
  λ self, (self, Return (f self)).
Definition modify (f : Clients → Clients) : method unit :=
  λ self, (f self, Return tt).
Definition lift {A : Type} (o : outcome A) : method A :=
  λ self, (self, o).

Definition set_client_dict (f : dict.t line_item → dict.t line_item)
    (self : Clients) : Clients :=
  {| _client_dict := f (_client_dict self);
     _year_dict := _year_dict self;
     _last_three_years := _last_three_years self |}.
Definition set_year_dict (f : dict.t Z → dict.t Z) (self : Clients) : Clients :=
  {| _client_dict := _client_dict self;
     _year_dict := f (_year_dict self);
     _last_three_years := _last_three_years self |}.
Definition set_last_three_years (f : list Z → list Z) (self : Clients) : Clients :=
  {| _client_dict := _client_dict self;
     _year_dict := _year_dict self;
     _last_three_years := f (_last_three_years self) |}.

(** [_split_line]: subscription id, amount, year and date of a line. *)
Definition _split_line (l : line) : Z * Z * Z * date :=
  (subscription_id l, amount_usd l, yyyy (transaction_date l), transaction_date l).

(** The first half of [_process_year]: the running total of the year. *)
Definition add_revenue (year amount : Z) (year_dict : dict.t Z) : dict.t Z :=
  match dict.get year year_dict with
  | Some total => dict.set year (total + amount) year_dict
  | None => dict.set year amount year_dict
  end.

(** The second half: keep the three highest years, oldest first. *)
Definition track_year (year : Z) (l : list Z) : list Z :=
  if bool_decide (year ∈ l) then l
  else if bool_decide (year > l !!! 2%nat) then
    let l := <[0%nat := l !!! 1%nat]> l in
    let l := <[1%nat := l !!! 2%nat]> l in
    <[2%nat := year]> l
  else if bool_decide (year > l !!! 1%nat) then
    let l := <[0%nat := l !!! 1%nat]> l in
    <[1%nat := year]> l
  else if bool_decide (year > l !!! 0%nat) then
    <[0%nat := year]> l
  else l.

Definition _process_year (year amount : Z) : method unit :=
  modify (set_year_dict (add_revenue year amount)) ;;
  modify (set_last_three_years (track_year year)).

(** [_set_type]: the subscription type after a transaction [current_date]
    that follows one on [prev_date]. *)
Definition _set_type (type_ : sub_type) (prev_date current_date : date)
    : outcome sub_type :=
  current ← datetime.strptime current_date;
  prev ← datetime.strptime prev_date;
  let delta := datetime.days current prev in
  if bool_decide (delta > 31 ∧ type_ ≠ daily ∧ type_ ≠ monthly) then
    Return yearly
  else if bool_decide (27 < delta < 32 ∧ type_ ≠ daily) then
    Return monthly
  else if bool_decide (0 < delta < 28) then
    Return daily
  else
    Raise InvalidDateTypeError.

(** [_process_line].  [_line_item] is the list stored in the dictionary, not
    a copy: each assignment to one of its slots is at once an update of the
    dictionary's value, so the increment of slot 1 stays when [_set_type]
    raises. *)
Definition _process_line (l : line) : method unit :=
  let '(_id, _amount, _year, _date) := _split_line l in
  _process_year _year _amount ;;
  client_dict ← gets _client_dict;
  match dict.get _id client_dict with
  | Some _line_item =>
      let _line_item :=
        mkitem (item_type _line_item) (item_duration _line_item + 1)
               (item_date _line_item) in
      modify (set_client_dict (dict.set _id _line_item)) ;;
      type_ ← lift (_set_type (item_type _line_item) (item_date _line_item) _date);
      let _line_item :=
        mkitem type_ (item_duration _line_item) (item_date _line_item) in
      modify (set_client_dict (dict.set _id _line_item)) ;;
      let _line_item :=
        mkitem (item_type _line_item) (item_duration _line_item) _date in
      modify (set_client_dict (dict.set _id _line_item))
  | None =>
      modify (set_client_dict (dict.set _id (mkitem one_off 1 _date)))
  end.

(** [_process]: [_process_line] on every line of the file, in order, up to
    the first exception.  [input_file] is the list of the data lines: the
    header line, when the file has one, is read and dropped before them. *)
Fixpoint _process (input_file : list line) : method unit :=
  match input_file with
  | [] => mret tt
  | l :: rest => _process_line l ;; _process rest
  end.

(** [Clients(file_name)]: the object, when the constructor returns. *)
Definition new_Clients (input_file : list line) : Clients * outcome unit :=
  _process input_file __init__.

(** ** Reports *)

(** The unit [get_subscriber_category] writes after the duration.  The
    source compares the type with [is]; the four type strings are
    constants of one module, for which identity and equality agree. *)
Definition unit_str (type_ : sub_type) : string :=
  match type_ with
  | daily => "days"
  | monthly => "months"
  | yearly => "years"
  | one_off => "time"
  end.

(** One element of the list [get_subscriber_category] builds. *)
Definition category_str (key_ : Z) (val_ : line_item) : string :=
  pretty key_ +:+ "," +:+ type_str (item_type val_) +:+ ","
  +:+ pretty (item_duration val_) +:+ " " +:+ unit_str (item_type val_).

Definition get_subscriber_category (self : Clients) : outcome (list string) :=
  if bool_decide (_client_dict self = []) then Raise FileNotProcessedError
  else
    Return (foldl (λ ret '(key_, val_), ret ++ [category_str key_ val_])
                  [] (_client_dict self)).

Definition get_revenue_numbers (self : Clients) : dict.t Z := _year_dict self.

(** The second slot of the tuples [growth_] and [loss_]: the string ['N/A']
    or a year. *)
Inductive year_slot : Set := NA | Year (year_end : Z).

Definition extremum : Set := Z * year_slot.

(** One pass of the loop body of [get_revenue_extrema]. *)
Definition extrema_step (year_dict : dict.t Z) (acc : extremum * extremum)
    (prev_year : Z) : outcome (extremum * extremum) :=
  let '(growth_, loss_) := acc in
  let year_end := prev_year + 1 in
  if dict.mem year_end year_dict then
    rev_end ← dict.item year_end year_dict;
    rev_prev ← dict.item prev_year year_dict;
    let diff := rev_end - rev_prev in
    if bool_decide (diff >= 0 ∧ diff > growth_.1) then
      Return ((diff, Year year_end), loss_)
    else if bool_decide (diff < 0 ∧ Z.abs diff > Z.abs loss_.1) then
      Return (growth_, (diff, Year year_end))
    else Return (growth_, loss_)
  else Return (growth_, loss_).

Fixpoint extrema_loop (year_dict : dict.t Z) (acc : extremum * extremum)
    (years : list Z) : outcome (extremum * extremum) :=
  match years with
  | [] => Return acc
  | prev_year :: rest =>
      acc ← extrema_step year_dict acc prev_year;
      extrema_loop year_dict acc rest
  end.

(** [growth_] and [loss_] when the loop of [get_revenue_extrema] ends. *)
Definition revenue_extrema (self : Clients) : outcome (extremum * extremum) :=
  extrema_loop (_year_dict self) ((0, NA), (0, NA)) (dict.keys (_year_dict self)).

(** [str.format] of such a tuple. *)
Definition extremum_str (e : extremum) : string :=
  "(" +:+ pretty e.1 +:+ ", "
  +:+ match e.2 with NA => "'N/A'" | Year y => pretty y end +:+ ")".

(** [get_revenue_extrema].  Its two dictionary subscripts are kept as
    such, with their [KeyError]; that none is ever raised is a theorem. *)
Definition get_revenue_extrema (self : Clients) : outcome string :=
  '(growth_, loss_) ← revenue_extrema self;
  Return ("Highest growth: " +:+ extremum_str growth_
          +:+ ". Highest loss: " +:+ extremum_str loss_ +:+ ".").

Definition predict_revenue (self : Clients) : outcome Z :=
  let last_yr := _last_three_years self !!! 2%nat in
  let thir_last_yr := _last_three_years self !!! 0%nat in
  last ← dict.item last_yr (_year_dict self);
  sec_last ← dict.item (_last_three_years self !!! 1%nat) (_year_dict self);
  thir_last ← dict.item thir_last_yr (_year_dict self);
  Return ((last - sec_last) * (last_yr - thir_last_yr + 1) + thir_last).

(** ** Notions of the specification *)

(** The year a line's transaction falls in, and its amount. *)
Definition year_of (l : line) : Z := yyyy (transaction_date l).

Definition Zsum (l : list Z) : Z := foldr Z.add 0 l.

(** The lines of a report dated in year [Y], and those of subscriber [i]. *)
Definition in_year (Y : Z) (lines : list line) : list line :=
  filter (λ l, year_of l = Y) lines.
Definition records_of (i : Z) (lines : list line) : list line :=
  filter (λ l, subscription_id l = i) lines.

(** The day-delta from a transaction to the next one of the subscriber. *)
Definition day_delta (prev_date current_date : date) : outcome Z :=
  current ← datetime.strptime current_date;
  prev ← datetime.strptime prev_date;
  Return (datetime.days current prev).

(** [y0 < y1 < y2] are the three largest of [years]. *)
Definition three_largest (years : list Z) (y0 y1 y2 : Z) : Prop :=
  y0 < y1 < y2 ∧ y0 ∈ years ∧ y1 ∈ years ∧ y2 ∈ years
  ∧ ∀ y, y ∈ years → y = y0 ∨ y = y1 ∨ y = y2 ∨ y < y0.

(** What [track_year] keeps true of the three slots [[a; b; c]], for the
    years [seen] so far: the slots are ascending, a slot repeats the one
    before only while it still holds the initial 0, a slot that is not 0 is
    a seen year, and a seen year outside the slots is below all of them. *)
Definition tracker_inv (seen : Z → Prop) (t : list Z) : Prop :=
  ∃ a b c, t = [a; b; c]
    ∧ 0 <= a ∧ a <= b ∧ b <= c
    ∧ (a < b ∨ b = 0) ∧ (b < c ∨ c = 0)
    ∧ (a ≠ 0 → seen a) ∧ (b ≠ 0 → seen b) ∧ (c ≠ 0 → seen c)
    ∧ ∀ y, seen y → y = a ∨ y = b ∨ y = c ∨ y < a.

(** ** Reports used as examples *)

(** Three years of revenue: 2012: 100, 2013: 150, 2014: 170. *)
Definition report_2012_2014 : list line :=
  [ mkline 1 501 100 (mkdate 3 14 2012);
    mkline 2 502 150 (mkdate 6 2 2013);
    mkline 3 503 170 (mkdate 9 30 2014) ].

(** Three years of revenue: 2010: 100, 2011: 300, 2012: 250. *)
Definition report_2010_2012 : list line :=
  [ mkline 1 501 100 (mkdate 3 14 2010);
    mkline 2 502 300 (mkdate 6 2 2011);
    mkline 3 503 250 (mkdate 9 30 2012) ].

(** Two years of revenue only. *)
Definition report_2013_2014 : list line :=
  [ mkline 1 501 150 (mkdate 6 2 2013);
    mkline 2 502 170 (mkdate 9 30 2014) ].

(** Two consecutive years with the same revenue. *)
Definition report_flat : list line :=
  [ mkline 1 501 100 (mkdate 3 14 2010);
    mkline 2 502 100 (mkdate 6 2 2011) ].

(** One subscriber, transactions 10, 15 and then 40 days apart. *)
Definition report_daily_gap : list line :=
  [ mkline 1 40662 5340 (mkdate 1 1 2000);
    mkline 2 40662 5340 (mkdate 1 11 2000);
    mkline 3 40662 5340 (mkdate 1 26 2000);
    mkline 4 40662 5340 (mkdate 3 6 2000) ].

(** One subscriber, transactions 29 and 29 days apart, among the lines of
    another one. *)
Definition report_monthly : list line :=
  [ mkline 1 3159 990 (mkdate 1 1 2001);
    mkline 2 3160 450 (mkdate 1 5 2001);
    mkline 3 3159 990 (mkdate 1 30 2001);
    mkline 4 3159 990 (mkdate 2 28 2001) ].

(** One subscriber, twice on the same day. *)
Definition report_same_day : list line :=
  [ mkline 1 3159 990 (mkdate 5 21 1986);
    mkline 2 3159 990 (mkdate 5 21 1986) ].

(** Four years of revenue, not in order of year. *)
Definition report_four_years : list line :=
  [ mkline 1 501 170 (mkdate 9 30 2014);
    mkline 2 502 120 (mkdate 2 7 2011);
    mkline 3 503 150 (mkdate 6 2 2013);
    mkline 4 504 100 (mkdate 3 14 2012);
    mkline 5 505 30 (mkdate 12 24 2013) ].

(** The pairs of consecutive years [(Y, Y + 1)] both in the ledger, in the
    order of the ledger: the change of revenue and the later year. *)
Definition deltas (year_dict : dict.t Z) : list (Z * Z) :=
  omap (λ Y, rev_end ← dict.get (Y + 1) year_dict;
             rev_prev ← dict.get Y year_dict;
             Some (rev_end - rev_prev, Y + 1))
       (dict.keys year_dict).

(** [e] is, among the [pairs] whose change qualifies, the first of those
    with the greatest [size] of change; the tuple [(0, 'N/A')] when none
    qualifies. *)
Definition first_greatest (qualifies : Z → Prop) (size : Z → Z)
    (pairs : list (Z * Z)) (e : extremum) : Prop :=
  (e = (0, NA) ∧ Forall (λ p, ¬ qualifies p.1) pairs)
  ∨ ∃ pre diff year post,
      pairs = pre ++ (diff, year) :: post ∧ e = (diff, Year year)
      ∧ qualifies diff
      ∧ Forall (λ p, qualifies p.1 → size p.1 < size diff) pre
      ∧ Forall (λ p, qualifies p.1 → size p.1 <= size diff) post.

(** What one more transaction, dated [d], makes of a subscriber's entry in
    [_client_dict]: a first entry when there is none, else one more
    observation, the type [_set_type] infers, and the new date. *)
Definition next_item (entry : option line_item) (d : date) : outcome line_item :=
  match entry with
  | None => Return (mkitem one_off 1 d)
  | Some it =>
      type_ ← _set_type (item_type it) (item_date it) d;
      Return (mkitem type_ (item_duration it + 1) d)
  end.

(** The entry after the subscriber's transactions [dates], in order. *)
Fixpoint history (entry : option line_item) (dates : list date)
    : outcome (option line_item) :=
  match dates with
  | [] => Return entry
  | d :: rest => it ← next_item entry d; history (Some it) rest
  end.

(** How fine a subscription type is: one-off below yearly below monthly
    below daily. *)
Definition rank (type_ : sub_type) : Z :=
  match type_ with
  | one_off => 0
  | yearly => 1
  | monthly => 2
  | daily => 3
  end.

(** The durations held in [_client_dict], one per subscriber. *)
Definition durations (self : Clients) : list Z :=
  item_duration <$> dict.values (_client_dict self).

(** The elements of a list in the order of their first occurrence. *)
Fixpoint first_seen (l : list Z) : list Z :=
  match l with
  | [] => []
  | x :: l' => x :: filter (λ y, y ≠ x) (first_seen l')
  end.

(** ** The text of the file *)

(** The methods again, now on the text of the lines: [_split_line] as the
    source has it and [_process] with its reading of the first line.  The
    dates are kept as text, as the source keeps them.  Python's [int],
    [str.strip] and [datetime.strptime] are taken as they are: what is
    proved holds for whatever they compute. *)
Module Text.

(** [IndexError], from a subscript of the list of fields, besides the
    exceptions met so far. *)
Inductive error : Set :=
  | IndexError
  | Builtin (e : exception).

Inductive result (A : Type) : Type :=
  | Done (a : A)
  | Fail (e : error).
Arguments Done {A} a.
Arguments Fail {A} e.

#[global] Instance result_ret : MRet result := @Done.
#[global] Instance result_bind : MBind result := λ A B f m,
  match m with
  | Done a => f a
  | Fail e => Fail e
  end.

(** The result of a built-in as a result of the text level. *)
Definition builtin {A : Type} (o : outcome A) : result A :=
  match o with
  | Return a => Done a
  | Raise e => Fail (Builtin e)
  end.

(** [s.split(sep)] for a separator of one character. *)
Fixpoint split (sep : ascii) (s : string) : list string :=
  match s with
  | EmptyString => [EmptyString]
  | String c s' =>
      if decide (c = sep) then EmptyString :: split sep s'
      else match split sep s' with
           | [] => [String c EmptyString]
           | field :: fields => String c field :: fields
           end
  end.

(** [s[n:]] and [s[0:n]]. *)
Fixpoint slice_from (n : nat) (s : string) : string :=
  match n, s with
  | O, _ => s
  | S n', String _ s' => slice_from n' s'
  | S _, EmptyString => EmptyString
  end.
Fixpoint slice_to (n : nat) (s : string) : string :=
  match n, s with
  | S n', String c s' => String c (slice_to n' s')
  | _, _ => EmptyString
  end.

(** [L[i]] *)
Definition subscript (L : list string) (i : nat) : result string :=
  match L !! i with
  | Some field => Done field
  | None => Fail IndexError
  end.

(** A value of [_client_dict], the date as its text. *)
Record line_item : Set := mkitem {
  item_type : sub_type;
  item_duration : Z;
  item_date : string
}.

Record Clients : Type := mkClients {
  _client_dict : dict.t line_item;
  _year_dict : dict.t Z;
  _last_three_years : list Z
}.

Definition __init__ : Clients :=
  {| _client_dict := []; _year_dict := []; _last_three_years := [0; 0; 0] |}.

Definition method (A : Type) : Type := Clients → Clients * result A.

#[global] Instance method_ret : MRet method := λ A a self, (self, Done a).
#[global] Instance method_bind : MBind method := λ A B f m self,
  match m self with
  | (self', Done a) => f a self'
  | (self', Fail e) => (self', Fail e)
  end.

Definition gets {A : Type} (f : Clients → A) : method A :=
  λ self, (self, Done (f self)).
Definition modify (f : Clients → Clients) : method unit :=
  λ self, (f self, Done tt).
Definition lift {A : Type} (r : result A) : method A :=
  λ self, (self, r).

Definition set_client_dict (f : dict.t line_item → dict.t line_item)
    (self : Clients) : Clients :=
  {| _client_dict := f (_client_dict self);
     _year_dict := _year_dict self;
     _last_three_years := _last_three_years self |}.
Definition set_year_dict (f : dict.t Z → dict.t Z) (self : Clients) : Clients :=
  {| _client_dict := _client_dict self;
     _year_dict := f (_year_dict self);
     _last_three_years := _last_three_years self |}.
Definition set_last_three_years (f : list Z → list Z) (self : Clients) : Clients :=
  {| _client_dict := _client_dict self;
     _year_dict := _year_dict self;
     _last_three_years := f (_last_three_years self) |}.

Section builtins.

(** [int(s)]: an integer or [ValueError]. *)
Variable int : string → outcome Z.
(** [s.strip()] *)
Variable strip : string → string.
(** [datetime.datetime.strptime(s, "%m/%d/%Y")]: a datetime at midnight,
    stood for by its day ordinal, or [ValueError]. *)
Variable strptime : string → outcome Z.

Definition _split_line (line : string) : result (Z * Z * Z * string) :=
  let L := split ","%char (strip line) in
  field ← subscript L 1; _id ← builtin (int field);
  field ← subscript L 2; _amount ← builtin (int field);
  _date ← subscript L 3;
  field ← subscript L 3; _year ← builtin (int (slice_from 6 field));
  Done (_id, _amount, _year, _date).

Definition _process_year (year amount : Z) : method unit :=
  modify (set_year_dict (add_revenue year amount)) ;;
  modify (set_last_three_years (track_year year)).

Definition _set_type (type_ : sub_type) (prev_date current_date : string)
    : outcome sub_type :=
  current ← strptime current_date;
  prev ← strptime prev_date;
  let delta := datetime.days current prev in
  if bool_decide (delta > 31 ∧ type_ ≠ daily ∧ type_ ≠ monthly) then
    Return yearly
  else if bool_decide (27 < delta < 32 ∧ type_ ≠ daily) then
    Return monthly
  else if bool_decide (0 < delta < 28) then
    Return daily
  else
    Raise InvalidDateTypeError.

Definition _process_line (line : string) : method unit :=
  '(_id, _amount, _year, _date) ← lift (_split_line line);
  _process_year _year _amount ;;
  client_dict ← gets _client_dict;
  match dict.get _id client_dict with
  | Some _line_item =>
      let _line_item :=
        mkitem (item_type _line_item) (item_duration _line_item + 1)
               (item_date _line_item) in
      modify (set_client_dict (dict.set _id _line_item)) ;;
      type_ ← lift (builtin (_set_type (item_type _line_item)
                                       (item_date _line_item) _date));
      let _line_item :=
        mkitem type_ (item_duration _line_item) (item_date _line_item) in
      modify (set_client_dict (dict.set _id _line_item)) ;;
      let _line_item :=
        mkitem (item_type _line_item) (item_duration _line_item) _date in
      modify (set_client_dict (dict.set _id _line_item))
  | None =>
      modify (set_client_dict (dict.set _id (mkitem one_off 1 _date)))
  end.

(** [for line in input_file: self._process_line(line)] *)
Fixpoint for_lines (input_file : list string) : method unit :=
  match input_file with
  | [] => mret tt
  | line :: rest => _process_line line ;; for_lines rest
  end.

(** [_process] on the lines of the file.  [readline] returns the first
    line, or the empty text when the file has none; the loop then goes
    over the lines after it. *)
Definition _process (input_file : list string) : method unit :=
  let first_line := hd EmptyString input_file in
  (if bool_decide (slice_to 2 first_line ≠ "Id") then _process_line first_line
   else mret tt) ;;
  for_lines (tail input_file).

(** [Clients(file_name)] for a file with these lines. *)
Definition new_Clients (input_file : list string) : Clients * result unit :=
  _process input_file __init__.

End builtins.

End Text.

(** The built-ins read the text [text] as the line [l]: after [strip] it
    has at least four fields, [int] reads the second and the third as the
    subscription id and the amount and the fourth from index 6 on as the
    year, and [strptime] makes of the fourth what it makes of the date of
    [l]. *)
Definition reads (int : string → outcome Z) (strip : string → string)
    (strptime : string → outcome Z) (text : string) (l : line) : Prop :=
  ∃ f0 f1 f2 f3 rest,
    Text.split ","%char (strip text) = f0 :: f1 :: f2 :: f3 :: rest
    ∧ int f1 = Return (subscription_id l)
    ∧ int f2 = Return (amount_usd l)
    ∧ int (Text.slice_from 6 f3) = Return (year_of l)
    ∧ strptime f3 = datetime.strptime (transaction_date l).

(** The object of the text level holds what the object [self] holds: the
    same ledger and slots, the same subscribers in the same order with the
    same type and duration, and dates [strptime] reads alike. *)
Definition same_state (strptime : string → outcome Z)
    (text_self : Text.Clients) (self : Clients) : Prop :=
  Text._year_dict text_self = _year_dict self
  ∧ Text._last_three_years text_self = _last_three_years self
  ∧ Forall2 (λ kv kv',
       kv.1 = kv'.1
       ∧ Text.item_type kv.2 = item_type kv'.2
       ∧ Text.item_duration kv.2 = item_duration kv'.2
       ∧ strptime (Text.item_date kv.2) = datetime.strptime (item_date kv'.2))
     (Text._client_dict text_self) (_client_dict self).

(** The same result: both return, or both raise the same exception. *)
Definition same_result (r : Text.result unit) (o : outcome unit) : Prop :=
  match r, o with
  | Text.Done _, Return _ => True
  | Text.Fail (Text.Builtin e), Raise e' => e = e'
  | _, _ => False
  end.

(** ** Plain built-ins, to run the text level on examples *)

(** Readings of [int], [strip] and [strptime] for text in the fixed
    format of the report: decimal digits with an optional sign, blanks and
    line ends, and two digits, two digits and four digits between
    slashes.  They stand for the built-ins only where an example is
    run. *)
Definition digit (c : ascii) : option Z :=
  let n := Z.of_N (N_of_ascii c) in
  if (48 <=? n) && (n <=? 57) then Some (n - 48) else None.

Fixpoint digits (value : Z) (s : string) : option Z :=
  match s with
  | EmptyString => Some value
  | String c s' => d ← digit c; digits (10 * value + d) s'
  end.

Definition plain_int (s : string) : outcome Z :=
  match s with
  | EmptyString => Raise ValueError
  | String c s' =>
      if decide (c = "-"%char) then
        match s', digits 0 s' with
        | String _ _, Some value => Return (- value)
        | _, _ => Raise ValueError
        end
      else
        match digits 0 s with
        | Some value => Return value
        | None => Raise ValueError
        end
  end.

Definition blank (c : ascii) : bool :=
  bool_decide (c ∈ [" "%char; "009"%char; "010"%char; "011"%char;
                    "012"%char; "013"%char]).

Fixpoint lstrip (s : string) : string :=
  match s with
  | EmptyString => EmptyString
  | String c s' => if blank c then lstrip s' else s
  end.

Definition plain_strip (s : string) : string :=
  String.rev (lstrip (String.rev (lstrip s))).

Definition plain_strptime (s : string) : outcome Z :=
  match Text.split "/"%char s with
  | [m; d; y] =>
      if bool_decide (String.length m = 2%nat ∧ String.length d = 2%nat
                      ∧ String.length y = 4%nat)
      then
        match digits 0 m, digits 0 d, digits 0 y with
        | Some m, Some d, Some y => datetime.strptime (mkdate m d y)
        | _, _, _ => Raise ValueError
        end
      else Raise ValueError
  | _ => Raise ValueError
  end.

(** A file with its header line, and the lines it stands for: one
    subscriber, 29 and 29 days apart, among the lines of another one. *)
Definition file_monthly : list string :=
  [ "Id,Subscription ID,Amount (USD),Transaction Date" +:+ String "010" "";
    "1,3159,990,01/01/2001" +:+ String "010" "";
    "2,3160,450,01/05/2001" +:+ String "010" "";
    "3,3159,990,01/30/2001" +:+ String "010" "";
    "4,3159,990,02/28/2001" +:+ String "010" "" ].

(** ** Proof steps used more than once *)

(** The side conditions of [tracker_inv] that order and membership settle. *)
Ltac slot_facts := solve [ done | lia | eauto | intros; right; eauto ].

(** The tests of [_set_type], one case each; what order and the types
    settle is closed. *)
Ltac set_type_cases :=
  repeat case_bool_decide;
  try solve
    [ done | lia | intuition (lia || congruence)
    | match goal with
      | H : ¬ _ |- _ => exfalso; apply H; repeat split; (lia || done)
      end ].

(** * Properties *)

(** ** Dictionaries *)

Section dict_facts.
Context {V : Type}.
Implicit Types (d : dict.t V) (k : Z) (v : V).

Lemma dict_get_set_eq d k v : dict.get k (dict.set k v d) = Some v.
Proof.
  induction d as [|[k' v'] d IH]; simpl.
  - by rewrite Z.eqb_refl.
  - destruct (Z.eqb_spec k k') as [->|Hne]; simpl.
    + by rewrite Z.eqb_refl.
    + by destruct (Z.eqb_spec k k').
Qed.

Lemma dict_get_set_ne d k k' v :
  k ≠ k' → dict.get k' (dict.set k v d) = dict.get k' d.
Proof.
  intros Hne. induction d as [|[k0 v0] d IH]; simpl.
  - by destruct (Z.eqb_spec k' k) as [->|].
  - destruct (Z.eqb_spec k k0) as [->|Hk]; simpl.
    + by destruct (Z.eqb_spec k' k0) as [->|].
    + destruct (Z.eqb_spec k' k0); [done | apply IH].
Qed.

Lemma dict_get_set d k k' v :
  dict.get k' (dict.set k v d) = if decide (k = k') then Some v else dict.get k' d.
Proof.
  case_decide as Hk; [subst; apply dict_get_set_eq | by apply dict_get_set_ne].
Qed.

Lemma dict_set_set d k v v' : dict.set k v' (dict.set k v d) = dict.set k v' d.
Proof.
  induction d as [|[k0 v0] d IH]; simpl.
  - by rewrite Z.eqb_refl.
  - destruct (Z.eqb_spec k k0) as [->|Hk]; simpl.
    + by rewrite Z.eqb_refl.
    + destruct (Z.eqb_spec k k0); [done | by rewrite IH].
Qed.

Lemma dict_get_Some_keys d k : is_Some (dict.get k d) ↔ k ∈ dict.keys d.
Proof.
  unfold dict.keys. induction d as [|[k0 v0] d IH]; simpl.
  - split; [by intros [? ?] | by intros ?%elem_of_nil].
  - rewrite elem_of_cons, <- IH.
    destruct (Z.eqb_spec k k0) as [->|Hk]; [split; eauto |].
    split; [by right | by intros [?|?]].
Qed.

Lemma dict_get_None_keys d k : dict.get k d = None ↔ k ∉ dict.keys d.
Proof. rewrite <- dict_get_Some_keys, eq_None_not_Some. done. Qed.


Lemma dict_keys_set_Some d k v :
  is_Some (dict.get k d) → dict.keys (dict.set k v d) = dict.keys d.
Proof.
  unfold dict.keys. induction d as [|[k0 v0] d IH]; simpl.
  - by intros [? ?].
  - destruct (Z.eqb_spec k k0) as [->|Hk]; simpl; [done |].
    intros H. f_equal. by apply IH.
Qed.

Lemma dict_keys_set_None d k v :
  dict.get k d = None → dict.keys (dict.set k v d) = dict.keys d ++ [k].
Proof.
  unfold dict.keys. induction d as [|[k0 v0] d IH]; simpl; [done |].
  destruct (Z.eqb_spec k k0) as [->|Hk]; simpl; [done |].
  intros H. f_equal. by apply IH.
Qed.

Lemma dict_keys_set_elem d k v k' :
  k' ∈ dict.keys (dict.set k v d) ↔ k' = k ∨ k' ∈ dict.keys d.
Proof.
  rewrite <- !dict_get_Some_keys, dict_get_set.
  case_decide; subst; split; eauto; intros [->|?]; eauto; done.
Qed.

Lemma dict_keys_set_NoDup d k v :
  NoDup (dict.keys d) → NoDup (dict.keys (dict.set k v d)).
Proof.
  intros Hnd. destruct (dict.get k d) as [v0|] eqn:Hg.
  - rewrite dict_keys_set_Some; eauto.
  - rewrite dict_keys_set_None by done.
    apply NoDup_app. split_and!; [done | | apply NoDup_singleton].
    intros x Hx ->%list_elem_of_singleton. by apply dict_get_None_keys in Hg.
Qed.

Lemma dict_item_Some d k v : dict.get k d = Some v → dict.item k d = Return v.
Proof. unfold dict.item. by intros ->. Qed.

Lemma dict_item_None d k : dict.get k d = None → dict.item k d = Raise (KeyError k).
Proof. unfold dict.item. by intros ->. Qed.

End dict_facts.

(** ** The effect of one line, and of a run *)

Lemma _process_year_eq year amount self :
  _process_year year amount self =
  ({| _client_dict := _client_dict self;
      _year_dict := add_revenue year amount (_year_dict self);
      _last_three_years := track_year year (_last_three_years self) |},
   Return tt).
Proof. reflexivity. Qed.

(** The three ways through [_process_line]. *)
Lemma _process_line_eq l self :
  _process_line l self =
  let _id := subscription_id l in
  let _date := transaction_date l in
  let self1 := (_process_year (year_of l) (amount_usd l) self).1 in
  match dict.get _id (_client_dict self) with
  | None =>
      (set_client_dict (dict.set _id (mkitem one_off 1 _date)) self1, Return tt)
  | Some it =>
      match _set_type (item_type it) (item_date it) _date with
      | Return type_ =>
          (set_client_dict
             (dict.set _id (mkitem type_ (item_duration it + 1) _date)) self1,
           Return tt)
      | Raise e =>
          (set_client_dict
             (dict.set _id
                (mkitem (item_type it) (item_duration it + 1) (item_date it)))
             self1,
           Raise e)
      end
  end.
Proof.
  unfold _process_line, _split_line, year_of, _process_year.
  unfold mbind, method_bind, gets, modify, lift. cbn.
  destruct (dict.get _ _) as [it|]; [|done].
  cbn. destruct (_set_type _ _ _); [|done].
  unfold set_client_dict; cbn. by rewrite !dict_set_set.
Qed.

Lemma _process_line_year_dict l self :
  _year_dict (_process_line l self).1
  = add_revenue (year_of l) (amount_usd l) (_year_dict self).
Proof.
  rewrite _process_line_eq; cbn.
  destruct (dict.get _ _); [destruct (_set_type _ _ _)|]; done.
Qed.

Lemma _process_line_last_three_years l self :
  _last_three_years (_process_line l self).1
  = track_year (year_of l) (_last_three_years self).
Proof.
  rewrite _process_line_eq; cbn.
  destruct (dict.get _ _); [destruct (_set_type _ _ _)|]; done.
Qed.

Lemma _process_cons l rest self :
  _process (l :: rest) self =
  match _process_line l self with
  | (self1, Return _) => _process rest self1
  | (self1, Raise e) => (self1, Raise e)
  end.
Proof. reflexivity. Qed.

Lemma _process_cons_Return l rest self self' :
  _process (l :: rest) self = (self', Return tt) →
  ∃ self1, _process_line l self = (self1, Return tt)
           ∧ _process rest self1 = (self', Return tt).
Proof.
  rewrite _process_cons. destruct (_process_line l self) as [self1 [[]|e]].
  - eauto.
  - done.
Qed.


Lemma _process_app_Raise pre post self self1 self' e :
  _process pre self = (self1, Return tt) →
  _process post self1 = (self', Raise e) →
  _process (pre ++ post) self = (self', Raise e).
Proof.
  revert self. induction pre as [|l pre IH]; intros self Hpre Hpost.
  - by injection Hpre as ->.
  - apply _process_cons_Return in Hpre as (self0 & Hl & Hpre).
    cbn [app]. rewrite _process_cons, Hl. eauto.
Qed.

(** A run that returns has applied both halves of [_process_year] to every
    line, in order. *)
Lemma _process_year_dict lines self self' :
  _process lines self = (self', Return tt) →
  _year_dict self'
  = foldl (λ d l, add_revenue (year_of l) (amount_usd l) d) (_year_dict self) lines.
Proof.
  revert self. induction lines as [|l lines IH]; intros self H.
  - by injection H as ->.
  - apply _process_cons_Return in H as (self1 & Hl & H).
    rewrite (IH _ H). cbn [foldl].
    by rewrite <- _process_line_year_dict, Hl.
Qed.

Lemma _process_last_three_years lines self self' :
  _process lines self = (self', Return tt) →
  _last_three_years self'
  = foldl (λ t l, track_year (year_of l) t) (_last_three_years self) lines.
Proof.
  revert self. induction lines as [|l lines IH]; intros self H.
  - by injection H as ->.
  - apply _process_cons_Return in H as (self1 & Hl & H).
    rewrite (IH _ H). cbn [foldl].
    by rewrite <- _process_line_last_three_years, Hl.
Qed.

(** ** The yearly revenue ledger *)

Lemma add_revenue_get year amount d Y :
  dict.get Y (add_revenue year amount d)
  = if decide (year = Y) then Some (default 0 (dict.get Y d) + amount)
    else dict.get Y d.
Proof.
  unfold add_revenue. case_decide as HY.
  - subst. destruct (dict.get Y d) eqn:Hg; cbn; by rewrite dict_get_set_eq.
  - destruct (dict.get year d); by rewrite dict_get_set_ne.
Qed.

Lemma add_revenue_keys_elem year amount d Y :
  Y ∈ dict.keys (add_revenue year amount d) ↔ Y = year ∨ Y ∈ dict.keys d.
Proof. unfold add_revenue. destruct (dict.get year d); apply dict_keys_set_elem. Qed.

Lemma add_revenue_keys_NoDup year amount d :
  NoDup (dict.keys d) → NoDup (dict.keys (add_revenue year amount d)).
Proof. unfold add_revenue. destruct (dict.get year d); apply dict_keys_set_NoDup. Qed.

Lemma Zsum_cons x l : Zsum (x :: l) = x + Zsum l.
Proof. reflexivity. Qed.

Lemma Zsum_values_set (d : dict.t Z) k v :
  Zsum (dict.values (dict.set k v d))
  = Zsum (dict.values d) - default 0 (dict.get k d) + v.
Proof.
  unfold dict.values. induction d as [|[k0 v0] d IH]; cbn.
  - lia.
  - destruct (Z.eqb_spec k k0) as [->|Hk]; cbn; [lia|].
    fold (Zsum (dict.set k v d).*2). rewrite IH. unfold Zsum. lia.
Qed.

Lemma Zsum_values_add_revenue year amount d :
  Zsum (dict.values (add_revenue year amount d)) = Zsum (dict.values d) + amount.
Proof.
  unfold add_revenue. destruct (dict.get year d) eqn:Hg;
    rewrite Zsum_values_set, Hg; cbn; lia.
Qed.

Lemma ledger_Zsum lines d :
  Zsum (dict.values (foldl (λ d l, add_revenue (year_of l) (amount_usd l) d) d lines))
  = Zsum (dict.values d) + Zsum (amount_usd <$> lines).
Proof.
  revert d. induction lines as [|l lines IH]; intros d; cbn [foldl].
  - rewrite fmap_nil. cbn. lia.
  - rewrite IH, Zsum_values_add_revenue, fmap_cons, Zsum_cons. lia.
Qed.

Lemma ledger_get lines d Y :
  dict.get Y (foldl (λ d l, add_revenue (year_of l) (amount_usd l) d) d lines)
  = match in_year Y lines with
    | [] => dict.get Y d
    | ls => Some (default 0 (dict.get Y d) + Zsum (amount_usd <$> ls))
    end.
Proof.
  unfold in_year. revert d. induction lines as [|l lines IH]; intros d; [done|].
  cbn [foldl]. rewrite IH, add_revenue_get, filter_cons.
  case_decide as HY.
  - cbn. destruct (filter _ lines); cbn; f_equal; lia.
  - done.
Qed.

Lemma ledger_keys_elem lines d Y :
  Y ∈ dict.keys (foldl (λ d l, add_revenue (year_of l) (amount_usd l) d) d lines)
  ↔ Y ∈ dict.keys d ∨ Y ∈ year_of <$> lines.
Proof.
  revert d. induction lines as [|l lines IH]; intros d; cbn [foldl].
  - rewrite fmap_nil, elem_of_nil. tauto.
  - rewrite IH, add_revenue_keys_elem, fmap_cons, elem_of_cons. tauto.
Qed.

Lemma ledger_keys_NoDup lines d :
  NoDup (dict.keys d) →
  NoDup (dict.keys (foldl (λ d l, add_revenue (year_of l) (amount_usd l) d) d lines)).
Proof.
  revert d. induction lines as [|l lines IH]; intros d Hd; cbn [foldl]; [done|].
  by apply IH, add_revenue_keys_NoDup.
Qed.

(** C4: when every line of a report has been processed, the values of the
    dictionary [get_revenue_numbers] returns add up to the amounts of all
    the lines; the dictionary has one entry per year, the entry of year [Y]
    is the sum of the amounts of exactly the lines dated in [Y], and a year
    without a line has no entry. *)
Theorem revenue_numbers_are_yearly_sums lines self :
  new_Clients lines = (self, Return tt) →
  Zsum (dict.values (get_revenue_numbers self)) = Zsum (amount_usd <$> lines)
  ∧ NoDup (dict.keys (get_revenue_numbers self))
  ∧ ∀ Y, dict.get Y (get_revenue_numbers self)
         = match in_year Y lines with
           | [] => None
           | ls => Some (Zsum (amount_usd <$> ls))
           end.
Proof.
  unfold new_Clients, get_revenue_numbers. intros Hrun.
  rewrite (_process_year_dict _ _ _ Hrun). cbn [_year_dict __init__].
  split_and!.
  - rewrite ledger_Zsum. cbn. lia.
  - apply ledger_keys_NoDup. cbn. constructor.
  - intros Y. rewrite ledger_get. cbn [dict.get].
    destruct (in_year Y lines); [done|]. done.
Qed.

Lemma revenue_numbers_are_yearly_sums_witness :
  Zsum (dict.values (get_revenue_numbers (new_Clients report_monthly).1))
  = Zsum (amount_usd <$> report_monthly)
  ∧ NoDup (dict.keys (get_revenue_numbers (new_Clients report_monthly).1))
  ∧ ∀ Y, dict.get Y (get_revenue_numbers (new_Clients report_monthly).1)
         = match in_year Y report_monthly with
           | [] => None
           | ls => Some (Zsum (amount_usd <$> ls))
           end.
Proof.
  apply (revenue_numbers_are_yearly_sums report_monthly). reflexivity.
Defined.

(** ** The three highest years *)

Lemma tracker_inv_init : tracker_inv (λ _, False) (_last_three_years __init__).
Proof. exists 0, 0, 0. cbn. split_and!; (done || lia || tauto). Qed.

Lemma tracker_inv_iff (seen seen' : Z → Prop) t :
  (∀ y, seen y ↔ seen' y) → tracker_inv seen t → tracker_inv seen' t.
Proof.
  intros Hiff (a & b & c & -> & ? & ? & ? & ? & ? & Ha & Hb & Hc & Htop).
  exists a, b, c. split_and!; try done.
  - intros. by apply Hiff, Ha.
  - intros. by apply Hiff, Hb.
  - intros. by apply Hiff, Hc.
  - intros y Hy. by apply Htop, Hiff.
Qed.

(** One insertion into the sorted slots. *)
Lemma track_year_inv seen t year :
  0 <= year → tracker_inv seen t →
  tracker_inv (λ y, y = year ∨ seen y) (track_year year t).
Proof.
  intros Hyear (a & b & c & -> & ? & ? & ? & ? & ? & Ha & Hb & Hc & Htop).
  unfold track_year. cbn.
  case_bool_decide as Hin.
  { exists a, b, c. split_and!; try slot_facts.
    intros y [->|Hy]; [|by apply Htop].
    rewrite !elem_of_cons, elem_of_nil in Hin. tauto. }
  rewrite !elem_of_cons, elem_of_nil in Hin.
  assert (year ≠ a ∧ year ≠ b ∧ year ≠ c) as (? & ? & ?) by tauto.
  repeat case_bool_decide.
  - exists b, c, year. split_and!; try slot_facts.
    intros y [->|Hy]; [lia|]. destruct (Htop y Hy) as [->|[->|[->|?]]]; lia.
  - exists b, year, c. split_and!; try slot_facts.
    intros y [->|Hy]; [lia|]. destruct (Htop y Hy) as [->|[->|[->|?]]]; lia.
  - exists year, b, c. split_and!; try slot_facts.
    intros y [->|Hy]; [lia|]. destruct (Htop y Hy) as [->|[->|[->|?]]]; lia.
  - exists a, b, c. split_and!; try slot_facts.
    intros y [->|Hy]; [lia|]. by apply Htop.
Qed.

Lemma track_years_inv seen t lines :
  Forall (λ l, 0 <= year_of l) lines → tracker_inv seen t →
  tracker_inv (λ y, seen y ∨ y ∈ year_of <$> lines)
              (foldl (λ t l, track_year (year_of l) t) t lines).
Proof.
  intros Hpos. revert seen t.
  induction Hpos as [|l lines Hl Hpos IH]; intros seen t Hinv; cbn [foldl].
  - eapply tracker_inv_iff; [|done]. intros y. rewrite fmap_nil, elem_of_nil. tauto.
  - eapply tracker_inv_iff; [|apply IH, (track_year_inv _ _ _ Hl Hinv)].
    intros y. cbn beta. rewrite fmap_cons, elem_of_cons. tauto.
Qed.

(** With three different years seen, none negative, the slots have left
    the initial zeros behind and hold the three largest. *)
Lemma tracker_inv_three seen t y1 y2 y3 :
  (∀ y, seen y → 0 <= y) →
  seen y1 → seen y2 → seen y3 → y1 ≠ y2 → y1 ≠ y3 → y2 ≠ y3 →
  tracker_inv seen t →
  ∃ a b c, t = [a; b; c] ∧ a < b < c ∧ seen a ∧ seen b ∧ seen c
    ∧ ∀ y, seen y → y = a ∨ y = b ∨ y = c ∨ y < a.
Proof.
  intros Hpos H1 H2 H3 ? ? ?
    (a & b & c & -> & ? & ? & ? & ? & ? & Ha & Hb & Hc & Htop).
  exists a, b, c. split; [done|].
  pose proof (Hpos _ H1). pose proof (Hpos _ H2). pose proof (Hpos _ H3).
  pose proof (Htop _ H1) as T1. pose proof (Htop _ H2) as T2.
  pose proof (Htop _ H3) as T3.
  assert (a < b < c) as Hlt by lia.
  split; [done|].
  assert (seen a) as Ha'.
  { destruct (decide (a = 0)) as [Ha0|Hne]; [|by apply Ha].
    assert (y1 = a ∨ y2 = a ∨ y3 = a) as [<-|[<-|<-]] by lia; done. }
  split_and!; [done | apply Hb; lia | apply Hc; lia | done].
Qed.

Lemma NoDup_three (l : list Z) :
  NoDup l → (3 <= length l)%nat →
  ∃ y1 y2 y3, y1 ∈ l ∧ y2 ∈ l ∧ y3 ∈ l ∧ y1 ≠ y2 ∧ y1 ≠ y3 ∧ y2 ≠ y3.
Proof.
  intros Hnd Hlen.
  destruct l as [|y1 [|y2 [|y3 rest]]]; cbn in Hlen; try lia.
  exists y1, y2, y3.
  apply NoDup_cons in Hnd as [Hn1 Hnd]. apply NoDup_cons in Hnd as [Hn2 _].
  split_and!; try (rewrite !elem_of_cons; tauto).
  - intros ->. apply Hn1, elem_of_cons. by left.
  - intros ->. apply Hn1. rewrite !elem_of_cons. tauto.
  - intros ->. apply Hn2, elem_of_cons. by left.
Qed.

Lemma three_NoDup (l : list Z) y1 y2 y3 :
  NoDup l → y1 ∈ l → y2 ∈ l → y3 ∈ l → y1 ≠ y2 → y1 ≠ y3 → y2 ≠ y3 →
  (3 <= length l)%nat.
Proof.
  intros Hnd H1 H2 H3 ? ? ?.
  change 3%nat with (length [y1; y2; y3]). apply submseteq_length.
  apply NoDup_submseteq.
  - repeat constructor; rewrite ?elem_of_cons, ?elem_of_nil; tauto.
  - intros y. rewrite !elem_of_cons, elem_of_nil. intros [->|[->|[->|[]]]]; done.
Qed.

(** The ledger and the slots after a run, from the initial state. *)
Lemma new_Clients_year_dict_keys lines self :
  new_Clients lines = (self, Return tt) →
  NoDup (dict.keys (_year_dict self))
  ∧ ∀ y, y ∈ dict.keys (_year_dict self) ↔ y ∈ year_of <$> lines.
Proof.
  unfold new_Clients. intros Hrun.
  rewrite (_process_year_dict _ _ _ Hrun). cbn [_year_dict __init__]. split.
  - apply ledger_keys_NoDup. constructor.
  - intros y. rewrite ledger_keys_elem. cbn. rewrite elem_of_nil. tauto.
Qed.

Lemma new_Clients_tracker_inv lines self :
  Forall (λ l, 0 <= year_of l) lines →
  new_Clients lines = (self, Return tt) →
  tracker_inv (λ y, y ∈ dict.keys (_year_dict self)) (_last_three_years self).
Proof.
  unfold new_Clients. intros Hpos Hrun.
  pose proof (track_years_inv _ _ lines Hpos tracker_inv_init) as Hinv.
  rewrite <- (_process_last_three_years _ _ _ Hrun) in Hinv.
  eapply tracker_inv_iff; [|exact Hinv].
  intros y. cbn beta.
  rewrite (proj2 (new_Clients_year_dict_keys _ _ Hrun)). tauto.
Qed.

Lemma year_dict_keys_nonneg lines self (lo : Z) :
  Forall (λ l, lo <= year_of l) lines →
  new_Clients lines = (self, Return tt) →
  ∀ y, y ∈ dict.keys (_year_dict self) → lo <= y.
Proof.
  intros Hpos Hrun y.
  rewrite (proj2 (new_Clients_year_dict_keys _ _ Hrun)).
  intros (l & -> & Hl)%list_elem_of_fmap. by eapply Forall_forall in Hpos.
Qed.

(** With three years in the ledger, none negative, the slots hold its
    three largest. *)
Lemma _process_three_largest lines self :
  Forall (λ l, 0 <= year_of l) lines →
  new_Clients lines = (self, Return tt) →
  (3 <= length (dict.keys (_year_dict self)))%nat →
  ∃ y0 y1 y2, _last_three_years self = [y0; y1; y2]
    ∧ three_largest (dict.keys (_year_dict self)) y0 y1 y2.
Proof.
  intros Hpos Hrun Hthree.
  destruct (new_Clients_year_dict_keys _ _ Hrun) as [Hnd _].
  apply NoDup_three in Hthree as (x1 & x2 & x3 & ? & ? & ? & ? & ? & ?); [|done].
  pose proof (new_Clients_tracker_inv _ _ Hpos Hrun) as Hinv.
  pose proof (year_dict_keys_nonneg lines self 0 Hpos Hrun) as Hnn.
  by eapply (tracker_inv_three _ _ x1 x2 x3) in Hinv.
Qed.

Lemma three_largest_unique years a b c a' b' c' :
  three_largest years a b c → three_largest years a' b' c' →
  a = a' ∧ b = b' ∧ c = c'.
Proof.
  intros (? & Ha & Hb & Hc & Htop) (? & Ha' & Hb' & Hc' & Htop').
  pose proof (Htop _ Ha'). pose proof (Htop _ Hb'). pose proof (Htop _ Hc').
  pose proof (Htop' _ Ha). pose proof (Htop' _ Hb). pose proof (Htop' _ Hc).
  lia.
Qed.

Lemma three_largest_length years a b c :
  NoDup years → three_largest years a b c → (3 <= length years)%nat.
Proof.
  intros Hnd (? & Ha & Hb & Hc & _). eapply (three_NoDup _ a b c); (done || lia).
Qed.

Lemma year_dict_keys_length lines self :
  new_Clients lines = (self, Return tt) →
  length (dict.keys (_year_dict self)) = length (remove_dups (year_of <$> lines)).
Proof.
  intros Hrun. destruct (new_Clients_year_dict_keys _ _ Hrun) as [Hnd Hin].
  apply Permutation_length, NoDup_Permutation; [done | apply NoDup_remove_dups |].
  intros y. by rewrite Hin, elem_of_remove_dups.
Qed.

(** C8: after a run over lines that hold at least three different years,
    [_last_three_years] is the list of the three largest years of the
    yearly revenue ledger, in ascending order.  It is what one
    [track_year] per line, a case split on the three slots, makes of the
    initial [[0, 0, 0]].  Years are those of dates: not negative. *)
Theorem last_three_years_are_three_largest lines self :
  Forall (λ l, 0 <= year_of l) lines →
  new_Clients lines = (self, Return tt) →
  (3 <= length (remove_dups (year_of <$> lines)))%nat →
  _last_three_years __init__ = [0; 0; 0]
  ∧ _last_three_years self
    = foldl (λ t l, track_year (year_of l) t) [0; 0; 0] lines
  ∧ ∃ y0 y1 y2, _last_three_years self = [y0; y1; y2]
      ∧ three_largest (dict.keys (get_revenue_numbers self)) y0 y1 y2.
Proof.
  intros Hpos Hrun Hthree. split; [done|]. split.
  - apply (_process_last_three_years _ _ _ Hrun).
  - unfold get_revenue_numbers. apply (_process_three_largest lines); try done.
    by rewrite (year_dict_keys_length lines).
Qed.

Lemma last_three_years_are_three_largest_witness :
  _last_three_years __init__ = [0; 0; 0]
  ∧ _last_three_years (new_Clients report_four_years).1
    = foldl (λ t l, track_year (year_of l) t) [0; 0; 0] report_four_years
  ∧ ∃ y0 y1 y2, _last_three_years (new_Clients report_four_years).1 = [y0; y1; y2]
      ∧ three_largest
          (dict.keys (get_revenue_numbers (new_Clients report_four_years).1))
          y0 y1 y2.
Proof.
  apply (last_three_years_are_three_largest report_four_years).
  - repeat constructor; vm_compute; discriminate.
  - reflexivity.
  - vm_compute. lia.
Defined.

(** ** The forecast *)

Lemma predict_revenue_eq self y0 y1 y2 :
  _last_three_years self = [y0; y1; y2] →
  predict_revenue self
  = (last ← dict.item y2 (_year_dict self);
     sec_last ← dict.item y1 (_year_dict self);
     thir_last ← dict.item y0 (_year_dict self);
     Return ((last - sec_last) * (y2 - y0 + 1) + thir_last)).
Proof. unfold predict_revenue. by intros ->. Qed.

(** C3: after a run that left at least three years in the ledger, the
    ledger has three largest years [y0 < y1 < y2], with revenues [r0],
    [r1], [r2], and [predict_revenue] returns
    [(r2 - r1) * (y2 - y0 + 1) + r0]; whichever way the three largest years
    and their revenues are named, that is its result.  On the ledger
    2012: 100, 2013: 150, 2014: 170 it returns 160.  Years are those of
    dates: not negative. *)
Theorem predict_revenue_formula :
  (∀ lines self,
     Forall (λ l, 0 <= year_of l) lines →
     new_Clients lines = (self, Return tt) →
     (3 <= length (dict.keys (get_revenue_numbers self)))%nat →
     ∃ y0 y1 y2 r0 r1 r2,
       three_largest (dict.keys (get_revenue_numbers self)) y0 y1 y2
       ∧ dict.get y0 (get_revenue_numbers self) = Some r0
       ∧ dict.get y1 (get_revenue_numbers self) = Some r1
       ∧ dict.get y2 (get_revenue_numbers self) = Some r2
       ∧ predict_revenue self = Return ((r2 - r1) * (y2 - y0 + 1) + r0))
  ∧ (∀ lines self y0 y1 y2 r0 r1 r2,
       Forall (λ l, 0 <= year_of l) lines →
       new_Clients lines = (self, Return tt) →
       three_largest (dict.keys (get_revenue_numbers self)) y0 y1 y2 →
       dict.get y0 (get_revenue_numbers self) = Some r0 →
       dict.get y1 (get_revenue_numbers self) = Some r1 →
       dict.get y2 (get_revenue_numbers self) = Some r2 →
       predict_revenue self = Return ((r2 - r1) * (y2 - y0 + 1) + r0))
  ∧ get_revenue_numbers (new_Clients report_2012_2014).1
    = [(2012, 100); (2013, 150); (2014, 170)]
  ∧ predict_revenue (new_Clients report_2012_2014).1 = Return 160.
Proof.
  unfold get_revenue_numbers.
  assert (∀ self y0 y1 y2 r0 r1 r2,
            _last_three_years self = [y0; y1; y2] →
            dict.get y0 (_year_dict self) = Some r0 →
            dict.get y1 (_year_dict self) = Some r1 →
            dict.get y2 (_year_dict self) = Some r2 →
            predict_revenue self = Return ((r2 - r1) * (y2 - y0 + 1) + r0))
    as Hformula.
  { intros self y0 y1 y2 r0 r1 r2 Ht H0 H1 H2.
    rewrite (predict_revenue_eq _ _ _ _ Ht).
    by rewrite (dict_item_Some _ _ _ H2), (dict_item_Some _ _ _ H1),
      (dict_item_Some _ _ _ H0). }
  split_and!; [| | reflexivity | reflexivity].
  - intros lines self Hpos Hrun Hlen.
    destruct (_process_three_largest lines self Hpos Hrun Hlen)
      as (y0 & y1 & y2 & Ht & Hthree).
    pose proof Hthree as (_ & H0 & H1 & H2 & _).
    apply dict_get_Some_keys in H0 as [r0 H0].
    apply dict_get_Some_keys in H1 as [r1 H1].
    apply dict_get_Some_keys in H2 as [r2 H2].
    exists y0, y1, y2, r0, r1, r2. split_and!; try done. by eapply Hformula.
  - intros lines self y0 y1 y2 r0 r1 r2 Hpos Hrun Hthree H0 H1 H2.
    destruct (new_Clients_year_dict_keys _ _ Hrun) as [Hnd _].
    destruct (_process_three_largest lines self Hpos Hrun)
      as (a & b & c & Ht & Hthree').
    { by eapply three_largest_length. }
    destruct (three_largest_unique _ _ _ _ _ _ _ Hthree Hthree')
      as (-> & -> & ->).
    by eapply Hformula.
Qed.

Lemma predict_revenue_formula_witness :
  predict_revenue (new_Clients report_four_years).1
  = Return ((170 - 180) * (2014 - 2012 + 1) + 100).
Proof.
  apply (proj1 (proj2 predict_revenue_formula) report_four_years _
           2012 2013 2014).
  - repeat constructor; vm_compute; discriminate.
  - reflexivity.
  - change (dict.keys _) with [2014; 2011; 2013; 2012].
    unfold three_largest. split; [lia|].
    split_and!; try (rewrite !elem_of_cons; tauto).
    intros y. rewrite !elem_of_cons, elem_of_nil. lia.
  - reflexivity.
  - reflexivity.
  - reflexivity.
Defined.

(** C2, as the specification states it, fails: with two years in the
    ledger [predict_revenue] raises the built-in [KeyError], from the
    subscript of the ledger at the initial 0 of [_last_three_years]; no
    exception of the module is named [InsufficientDataError]. *)
Lemma predict_revenue_two_years_KeyError :
  length (dict.keys (get_revenue_numbers (new_Clients report_2013_2014).1)) = 2%nat
  ∧ predict_revenue (new_Clients report_2013_2014).1 = Raise (KeyError 0)
  ∧ ¬ ∃ e, predict_revenue (new_Clients report_2013_2014).1 = Raise e
           ∧ exception_name e = "InsufficientDataError".
Proof.
  split_and!; [reflexivity | reflexivity |].
  intros (e & He & Hname). vm_compute in He. injection He as <-. discriminate.
Qed.

(** C2, amended: over lines dated in calendar years (1 or later),
    [predict_revenue] raises [KeyError] for the key 0 when the ledger has
    fewer than three years, and returns when it has three or more. *)
Theorem predict_revenue_needs_three_years lines self :
  Forall (λ l, 1 <= year_of l) lines →
  new_Clients lines = (self, Return tt) →
  ((length (dict.keys (get_revenue_numbers self)) < 3)%nat →
   predict_revenue self = Raise (KeyError 0))
  ∧ ((3 <= length (dict.keys (get_revenue_numbers self)))%nat →
     ∃ v, predict_revenue self = Return v).
Proof.
  unfold get_revenue_numbers. intros Hpos Hrun.
  assert (Forall (λ l, 0 <= year_of l) lines) as Hpos0
    by (eapply Forall_impl; [done | cbn; intros; lia]).
  destruct (new_Clients_year_dict_keys _ _ Hrun) as [Hnd _].
  pose proof (year_dict_keys_nonneg lines self 1 Hpos Hrun) as Hone.
  split.
  - intros Hfew.
    destruct (new_Clients_tracker_inv _ _ Hpos0 Hrun)
      as (a & b & c & Ht & ? & ? & ? & ? & ? & Ha & Hb & Hc & _).
    rewrite (predict_revenue_eq _ _ _ _ Ht).
    assert (dict.get 0 (_year_dict self) = None) as Hzero.
    { apply dict_get_None_keys. intros ?%Hone. lia. }
    assert (a = 0) as ->.
    { destruct (decide (a = 0)) as [|Hne]; [done|]. exfalso.
      enough (3 <= length (dict.keys (_year_dict self)))%nat by lia.
      apply (three_NoDup _ a b c); try done; try lia;
        [apply Ha | apply Hb | apply Hc]; lia. }
    destruct (decide (c = 0)) as [->|Hc0].
    { by rewrite (dict_item_None _ _ Hzero). }
    destruct (proj2 (dict_get_Some_keys _ _) (Hc Hc0)) as [rc ->%dict_item_Some].
    destruct (decide (b = 0)) as [->|Hb0].
    { cbn. by rewrite (dict_item_None _ _ Hzero). }
    destruct (proj2 (dict_get_Some_keys _ _) (Hb Hb0)) as [rb ->%dict_item_Some].
    cbn. by rewrite (dict_item_None _ _ Hzero).
  - intros Hthree.
    destruct (_process_three_largest lines self Hpos0 Hrun Hthree)
      as (a & b & c & Ht & _ & Ha & Hb & Hc & _).
    rewrite (predict_revenue_eq _ _ _ _ Ht).
    destruct (proj2 (dict_get_Some_keys _ _) Ha) as [ra ->%dict_item_Some].
    destruct (proj2 (dict_get_Some_keys _ _) Hb) as [rb ->%dict_item_Some].
    destruct (proj2 (dict_get_Some_keys _ _) Hc) as [rc ->%dict_item_Some].
    cbn. eauto.
Qed.

Lemma predict_revenue_needs_three_years_witness :
  predict_revenue (new_Clients report_2013_2014).1 = Raise (KeyError 0)
  ∧ ∃ v, predict_revenue (new_Clients report_four_years).1 = Return v.
Proof.
  split.
  - apply (predict_revenue_needs_three_years report_2013_2014).
    + repeat constructor; vm_compute; discriminate.
    + reflexivity.
    + change (length _) with 2%nat. lia.
  - apply (predict_revenue_needs_three_years report_four_years).
    + repeat constructor; vm_compute; discriminate.
    + reflexivity.
    + change (length _) with 4%nat. lia.
Defined.

(** ** Highest growth and highest loss *)

Section first_greatest_facts.
Context (qualifies : Z → Prop) (size : Z → Z).
Hypothesis size_0 : ∀ diff, qualifies diff → size 0 < size diff.

Lemma first_greatest_nil : first_greatest qualifies size [] (0, NA).
Proof. left. split; [done | constructor]. Qed.

(** A later pair takes over only with a greater change. *)
Lemma first_greatest_take pairs e diff year :
  first_greatest qualifies size pairs e →
  qualifies diff → size e.1 < size diff →
  first_greatest qualifies size (pairs ++ [(diff, year)]) (diff, Year year).
Proof.
  intros Hfg Hq Hlt. right. exists pairs, diff, year, [].
  split_and!; [done | done | done | | by constructor].
  destruct Hfg as [[-> Hnone]|(pre & d0 & y0 & post & -> & -> & Hq0 & Hpre & Hpost)].
  - eapply Forall_impl; [exact Hnone|]. cbn. tauto.
  - cbn in Hlt. rewrite Forall_app, Forall_cons. split_and!.
    + eapply Forall_impl; [exact Hpre|]. cbn. intros p Hp ?%Hp. lia.
    + cbn. lia.
    + eapply Forall_impl; [exact Hpost|]. cbn. intros p Hp ?%Hp. lia.
Qed.

Lemma first_greatest_keep pairs e diff year :
  first_greatest qualifies size pairs e →
  ¬ (qualifies diff ∧ size e.1 < size diff) →
  first_greatest qualifies size (pairs ++ [(diff, year)]) e.
Proof.
  intros [[-> Hnone]|(pre & d0 & y0 & post & -> & -> & Hq0 & Hpre & Hpost)] Hno.
  - left. split; [done|]. rewrite Forall_app, Forall_singleton. split; [done|].
    cbn in *. intros Hq. apply Hno. split; [done | by apply size_0].
  - right. exists pre, d0, y0, (post ++ [(diff, year)]).
    split_and!; try done.
    + by rewrite <- app_assoc.
    + rewrite Forall_app, Forall_singleton. split; [done|].
      cbn in *. intros Hq. apply Z.le_ngt. tauto.
Qed.

Lemma first_greatest_qualifies pairs e :
  first_greatest qualifies size pairs e → e.1 = 0 ∨ qualifies e.1.
Proof. intros [[-> _]|(? & ? & ? & ? & _ & -> & ? & _)]; cbn; tauto. Qed.

End first_greatest_facts.

Lemma extrema_loop_first_greatest year_dict years pairs growth_ loss_ :
  (∀ Y, Y ∈ years → Y ∈ dict.keys year_dict) →
  first_greatest (λ diff, 0 < diff) (λ diff, diff) pairs growth_ →
  first_greatest (λ diff, diff < 0) Z.abs pairs loss_ →
  ∃ growth' loss',
    extrema_loop year_dict (growth_, loss_) years = Return (growth', loss')
    ∧ first_greatest (λ diff, 0 < diff) (λ diff, diff)
        (pairs ++ omap (λ Y, rev_end ← dict.get (Y + 1) year_dict;
                             rev_prev ← dict.get Y year_dict;
                             Some (rev_end - rev_prev, Y + 1)) years)
        growth'
    ∧ first_greatest (λ diff, diff < 0) Z.abs
        (pairs ++ omap (λ Y, rev_end ← dict.get (Y + 1) year_dict;
                             rev_prev ← dict.get Y year_dict;
                             Some (rev_end - rev_prev, Y + 1)) years)
        loss'.
Proof.
  revert pairs growth_ loss_.
  induction years as [|Y years IH]; intros pairs growth_ loss_ Hkeys Hg Hl.
  - exists growth_, loss_. cbn. by rewrite app_nil_r.
  - assert (Y ∈ dict.keys year_dict) as HY by (apply Hkeys; left).
    apply dict_get_Some_keys in HY as [rev_prev Hprev].
    assert (∀ Y', Y' ∈ years → Y' ∈ dict.keys year_dict) as Hkeys'
      by (intros; apply Hkeys; by right).
    cbn [extrema_loop omap list_omap]. unfold extrema_step, dict.mem.
    destruct (dict.get (Y + 1) year_dict) as [rev_end|] eqn:Hend.
    2: { cbn. by apply IH. }
    rewrite (dict_item_Some _ _ _ Hend), (dict_item_Some _ _ _ Hprev), Hprev.
    cbn [mbind outcome_bind option_bind].
    set (diff := rev_end - rev_prev).
    rewrite (cons_middle _ pairs), app_assoc.
    pose proof (first_greatest_qualifies _ _ _ _ Hg) as Hg0.
    cbn beta in Hg0.
    repeat case_bool_decide; cbn [mbind outcome_bind fst]; (apply IH; [done | | ]).
    + eapply first_greatest_take; [exact Hg | lia | lia].
    + eapply first_greatest_keep; [intros; lia | exact Hl | lia].
    + eapply first_greatest_keep; [intros; lia | exact Hg | lia].
    + eapply first_greatest_take; [exact Hl | lia | lia].
    + eapply first_greatest_keep; [intros; lia | exact Hg | lia].
    + eapply first_greatest_keep; [intros; lia | exact Hl | lia].
Qed.

(** C5, as the specification states it, fails: with the same revenue in
    2010 and 2011 the pair with the largest non-negative change is the one
    of 2011, with change 0, and the growth reported is ['N/A']. *)
Lemma revenue_extrema_flat_no_growth :
  deltas (get_revenue_numbers (new_Clients report_flat).1) = [(0, 2011)]
  ∧ revenue_extrema (new_Clients report_flat).1 = Return ((0, NA), (0, NA))
  ∧ ¬ first_greatest (λ diff, 0 <= diff) (λ diff, diff)
        (deltas (get_revenue_numbers (new_Clients report_flat).1)) (0, NA).
Proof.
  split_and!; [reflexivity | reflexivity |].
  change (deltas _) with [(0, 2011)].
  intros [[_ Hnone]|(pre & diff & year & post & _ & [=] & _)].
  apply Forall_cons in Hnone as [Hno _]. cbn in Hno. lia.
Qed.

(** C5, amended: [get_revenue_extrema] always returns.  Over the pairs of
    consecutive years both in the ledger, the growth it reports is the
    first pair with the largest change above 0, the loss the first pair
    with the most negative change, and [(0, 'N/A')] stands for either when
    no pair has such a change.  On the ledger 2010: 100, 2011: 300,
    2012: 250 it reports the change 200 for 2011 and -50 for 2012. *)
Theorem revenue_extrema_first_greatest :
  (∀ self, ∃ growth_ loss_,
     revenue_extrema self = Return (growth_, loss_)
     ∧ get_revenue_extrema self
       = Return ("Highest growth: " +:+ extremum_str growth_
                 +:+ ". Highest loss: " +:+ extremum_str loss_ +:+ ".")
     ∧ first_greatest (λ diff, 0 < diff) (λ diff, diff)
         (deltas (get_revenue_numbers self)) growth_
     ∧ first_greatest (λ diff, diff < 0) Z.abs
         (deltas (get_revenue_numbers self)) loss_)
  ∧ get_revenue_numbers (new_Clients report_2010_2012).1
    = [(2010, 100); (2011, 300); (2012, 250)]
  ∧ revenue_extrema (new_Clients report_2010_2012).1
    = Return ((200, Year 2011), (-50, Year 2012))
  ∧ get_revenue_extrema (new_Clients report_2010_2012).1
    = Return "Highest growth: (200, 2011). Highest loss: (-50, 2012).".
Proof.
  split; [|split_and!; reflexivity].
  intros self. unfold get_revenue_numbers, get_revenue_extrema.
  destruct (extrema_loop_first_greatest (_year_dict self)
              (dict.keys (_year_dict self)) [] (0, NA) (0, NA))
    as (growth' & loss' & Hloop & Hg & Hl);
    [done | apply first_greatest_nil | apply first_greatest_nil |].
  assert (revenue_extrema self = Return (growth', loss')) as -> by exact Hloop.
  exists growth', loss'. by split_and!.
Qed.

(** ** Subscription types *)

(** [_set_type] as a function of the day-delta. *)
Lemma _set_type_delta type_ prev_date current_date delta :
  day_delta prev_date current_date = Return delta →
  _set_type type_ prev_date current_date
  = if bool_decide (delta > 31 ∧ type_ ≠ daily ∧ type_ ≠ monthly) then
      Return yearly
    else if bool_decide (27 < delta < 32 ∧ type_ ≠ daily) then Return monthly
    else if bool_decide (0 < delta < 28) then Return daily
    else Raise InvalidDateTypeError.
Proof.
  unfold day_delta, _set_type.
  destruct (datetime.strptime current_date) as [current|]; [|done].
  destruct (datetime.strptime prev_date) as [prev|]; [|done].
  cbn. by intros [= ->].
Qed.

(** Without a delta there is no type: a date [strptime] refuses. *)
Lemma _set_type_no_delta type_ prev_date current_date e :
  day_delta prev_date current_date = Raise e →
  e = ValueError ∧ _set_type type_ prev_date current_date = Raise ValueError.
Proof.
  unfold day_delta, _set_type, datetime.strptime.
  destruct (datetime._check_date_fields current_date); cbn.
  - destruct (datetime._check_date_fields prev_date); cbn; [done|].
    by intros [= <-].
  - by intros [= <-].
Qed.

Lemma day_delta_same d ordinal :
  datetime.strptime d = Return ordinal → day_delta d d = Return 0.
Proof.
  unfold day_delta. intros ->. cbn. unfold datetime.days. f_equal. lia.
Qed.

(** A line that is processed without an exception has made of its
    subscriber's entry what [next_item] says, and conversely. *)
Lemma _process_line_next_item l self it :
  next_item (dict.get (subscription_id l) (_client_dict self))
            (transaction_date l) = Return it →
  _process_line l self
  = (set_client_dict (dict.set (subscription_id l) it)
       (_process_year (year_of l) (amount_usd l) self).1,
     Return tt).
Proof.
  rewrite _process_line_eq. cbn zeta. unfold next_item.
  destruct (dict.get _ _) as [it0|]; [|by intros [= <-]].
  destruct (_set_type _ _ _) as [type_|]; [|done]. cbn. by intros [= <-].
Qed.

Lemma _process_line_Return l self self' :
  _process_line l self = (self', Return tt) →
  ∃ it, next_item (dict.get (subscription_id l) (_client_dict self))
                  (transaction_date l) = Return it
        ∧ _client_dict self'
          = dict.set (subscription_id l) it (_client_dict self).
Proof.
  rewrite _process_line_eq. cbn zeta. unfold next_item.
  destruct (dict.get _ _) as [it0|].
  - destruct (_set_type _ _ _) as [type_|]; [|done].
    intros [= <-]. eexists. split; [reflexivity | done].
  - intros [= <-]. eexists. split; [reflexivity | done].
Qed.

Lemma _process_line_Raise l self self' e :
  _process_line l self = (self', Raise e) →
  ∃ it, dict.get (subscription_id l) (_client_dict self) = Some it
        ∧ _set_type (item_type it) (item_date it) (transaction_date l) = Raise e.
Proof.
  rewrite _process_line_eq. cbn zeta.
  destruct (dict.get _ _) as [it0|]; [|done].
  destruct (_set_type _ _ _) as [type_|e'] eqn:Hset; [done|].
  intros [= _ <-]. eauto.
Qed.

(** The entry of subscriber [i] after a run is what the subscriber's own
    lines, in order, make of the entry before it. *)
Lemma _process_history lines self self' i :
  _process lines self = (self', Return tt) →
  history (dict.get i (_client_dict self))
          (transaction_date <$> records_of i lines)
  = Return (dict.get i (_client_dict self')).
Proof.
  unfold records_of. revert self.
  induction lines as [|l lines IH]; intros self Hrun.
  - by injection Hrun as ->.
  - apply _process_cons_Return in Hrun as (self1 & Hl & Hrun).
    apply _process_line_Return in Hl as (it & Hnext & Hdict).
    rewrite filter_cons. case_decide as Hi.
    + subst i. rewrite fmap_cons. cbn [history]. rewrite Hnext. cbn.
      rewrite <- (IH _ Hrun), Hdict. by rewrite dict_get_set_eq.
    + rewrite <- (IH _ Hrun), Hdict. by rewrite dict_get_set_ne.
Qed.

Lemma _process_client_dict_keys lines self self' :
  _process lines self = (self', Return tt) →
  (NoDup (dict.keys (_client_dict self)) → NoDup (dict.keys (_client_dict self')))
  ∧ ∀ i, i ∈ dict.keys (_client_dict self')
         ↔ i ∈ dict.keys (_client_dict self) ∨ i ∈ subscription_id <$> lines.
Proof.
  revert self. induction lines as [|l lines IH]; intros self Hrun.
  - injection Hrun as ->. split; [done|].
    intros i. rewrite fmap_nil, elem_of_nil. tauto.
  - apply _process_cons_Return in Hrun as (self1 & Hl & Hrun).
    apply _process_line_Return in Hl as (it & _ & Hdict).
    destruct (IH _ Hrun) as [Hnd Hin]. rewrite Hdict in Hnd, Hin. split.
    + intros. by apply Hnd, dict_keys_set_NoDup.
    + intros i. rewrite Hin, dict_keys_set_elem, fmap_cons, elem_of_cons. tauto.
Qed.

(** Every transaction after the first adds one to the duration and leaves
    its date. *)
Lemma history_Some it dates entry :
  history (Some it) dates = Return entry →
  ∃ it', entry = Some it'
         ∧ item_duration it' = item_duration it + Z.of_nat (length dates)
         ∧ item_date it' = default (item_date it) (last dates).
Proof.
  revert it. induction dates as [|d dates IH]; intros it.
  - intros [= <-]. exists it. cbn. split_and!; [done | lia | done].
  - cbn [history next_item].
    destruct (_set_type _ _ _) as [type_|]; [|done]. cbn.
    intros (it' & -> & Hdur & Hdate)%IH. exists it'. cbn in Hdur, Hdate.
    split_and!; [done | cbn [length]; lia |].
    rewrite Hdate. destruct dates as [|d' dates]; [done|].
    rewrite last_cons_cons.
    destruct (last (d' :: dates)) eqn:Hlast; [done|].
    by apply last_None in Hlast.
Qed.

Lemma history_None d dates it :
  history None (d :: dates) = Return (Some it) →
  item_duration it = Z.of_nat (length (d :: dates))
  ∧ Some (item_date it) = last (d :: dates).
Proof.
  cbn [history next_item]. cbn.
  intros (it' & [= <-] & Hdur & Hdate)%history_Some. cbn in Hdur, Hdate.
  split; [cbn [length]; lia|]. rewrite Hdate.
  destruct dates as [|d' dates]; [done|]. rewrite last_cons_cons.
  destruct (last (d' :: dates)) eqn:Hlast; [done|]. by apply last_None in Hlast.
Qed.

(** ** Theorems on subscribers *)

(** C1: a daily or monthly subscriber keeping its type over a gap of more
    than 31 days, which the docstring of [_set_type] also promises, is not
    what [_set_type] does: its first test excludes these two types, no later
    test accepts a delta above 31, and the final [else] raises
    [InvalidDateTypeError].  The run over one subscriber's transactions 10,
    15 and 40 days apart stops on the last line with that exception, the
    subscriber still daily. *)
Theorem set_type_long_gap_raises :
  (∀ type_ prev_date current_date delta,
     day_delta prev_date current_date = Return delta →
     31 < delta → type_ = daily ∨ type_ = monthly →
     _set_type type_ prev_date current_date = Raise InvalidDateTypeError)
  ∧ day_delta (mkdate 1 26 2000) (mkdate 3 6 2000) = Return 40
  ∧ (new_Clients report_daily_gap).2 = Raise InvalidDateTypeError
  ∧ dict.get 40662 (_client_dict (new_Clients report_daily_gap).1)
    = Some (mkitem daily 4 (mkdate 1 26 2000)).
Proof.
  split; [|split_and!; reflexivity].
  intros type_ prev_date current_date delta Hdelta Hgap Htype.
  rewrite (_set_type_delta _ _ _ _ Hdelta).
  destruct Htype as [-> | ->]; set_type_cases.
Qed.

Lemma set_type_long_gap_raises_witness :
  _set_type daily (mkdate 1 26 2000) (mkdate 3 6 2000)
  = Raise InvalidDateTypeError.
Proof.
  apply (proj1 set_type_long_gap_raises daily _ _ 40).
  - reflexivity.
  - lia.
  - by left.
Defined.

(** C6: when the subscriber of a line has an entry and the line is dated
    on or before the entry's date, [_process_line] raises
    [InvalidDateTypeError], and so does the whole run, whatever lines follow;
    a line dated the same (valid) day as the one before has delta 0.  The
    run over two lines of one subscriber on the same day raises it. *)
Theorem nonpositive_delta_raises :
  (∀ l self it delta,
     dict.get (subscription_id l) (_client_dict self) = Some it →
     day_delta (item_date it) (transaction_date l) = Return delta →
     delta <= 0 →
     (_process_line l self).2 = Raise InvalidDateTypeError
     ∧ ∀ pre rest self0,
         _process pre self0 = (self, Return tt) →
         (_process (pre ++ l :: rest) self0).2 = Raise InvalidDateTypeError)
  ∧ (∀ d ordinal, datetime.strptime d = Return ordinal → day_delta d d = Return 0)
  ∧ (new_Clients report_same_day).2 = Raise InvalidDateTypeError.
Proof.
  split_and!; [| apply day_delta_same | reflexivity].
  intros l self it delta Hit Hdelta Hle.
  assert (∃ self', _process_line l self = (self', Raise InvalidDateTypeError))
    as [self' Hl].
  { rewrite _process_line_eq. cbn zeta. rewrite Hit.
    rewrite (_set_type_delta _ _ _ _ Hdelta).
    set_type_cases. eauto. }
  split; [by rewrite Hl|].
  intros pre rest self0 Hpre.
  erewrite _process_app_Raise; [done | exact Hpre |].
  by rewrite _process_cons, Hl.
Qed.

Lemma nonpositive_delta_raises_witness :
  (_process_line (mkline 2 3159 990 (mkdate 5 21 1986))
     (new_Clients [mkline 1 3159 990 (mkdate 5 21 1986)]).1).2
  = Raise InvalidDateTypeError.
Proof.
  apply (proj1 nonpositive_delta_raises _ _ (mkitem one_off 1 (mkdate 5 21 1986)) 0).
  - reflexivity.
  - reflexivity.
  - lia.
Defined.

(** C7: a line of a subscriber without an entry is processed without an
    exception and gives it the entry [['one-off', 1, date]]; after a run,
    a subscriber with three lines 29 and 29 days apart has type monthly
    (and duration 3), one with a single line has type one-off and duration
    1.  Three such lines in a row, for a subscriber not seen before, are
    processed without an exception. *)
Theorem first_record_and_monthly :
  (∀ l self,
     dict.get (subscription_id l) (_client_dict self) = None →
     ∃ self', _process_line l self = (self', Return tt)
       ∧ dict.get (subscription_id l) (_client_dict self')
         = Some (mkitem one_off 1 (transaction_date l)))
  ∧ (∀ lines self i d0 d1 d2,
       new_Clients lines = (self, Return tt) →
       transaction_date <$> records_of i lines = [d0; d1; d2] →
       day_delta d0 d1 = Return 29 → day_delta d1 d2 = Return 29 →
       dict.get i (_client_dict self) = Some (mkitem monthly 3 d2))
  ∧ (∀ self i r0 r1 r2 a0 a1 a2 d0 d1 d2,
       dict.get i (_client_dict self) = None →
       day_delta d0 d1 = Return 29 → day_delta d1 d2 = Return 29 →
       ∃ self',
         _process [mkline r0 i a0 d0; mkline r1 i a1 d1; mkline r2 i a2 d2] self
         = (self', Return tt)
         ∧ dict.get i (_client_dict self') = Some (mkitem monthly 3 d2))
  ∧ (∀ lines self i d0,
       new_Clients lines = (self, Return tt) →
       transaction_date <$> records_of i lines = [d0] →
       dict.get i (_client_dict self) = Some (mkitem one_off 1 d0)).
Proof.
  assert (∀ type_ d0 d1, type_ ≠ daily → day_delta d0 d1 = Return 29 →
            _set_type type_ d0 d1 = Return monthly) as Hmonthly.
  { intros type_ d0 d1 Htype Hdelta. rewrite (_set_type_delta _ _ _ _ Hdelta).
    set_type_cases. }
  split_and!.
  - intros l self Hnone. eexists. split.
    + apply _process_line_next_item. by rewrite Hnone.
    + cbn. apply dict_get_set_eq.
  - intros lines self i d0 d1 d2 Hrun Hdates H01 H12.
    pose proof (_process_history _ _ _ i Hrun) as Hhist.
    rewrite Hdates in Hhist. cbn in Hhist.
    rewrite (Hmonthly one_off) in Hhist by done. cbn in Hhist.
    rewrite (Hmonthly monthly) in Hhist by done. cbn in Hhist.
    by injection Hhist as <-.
  - intros self i r0 r1 r2 a0 a1 a2 d0 d1 d2 Hnone H01 H12.
    eexists. split.
    + rewrite _process_cons.
      erewrite _process_line_next_item by (cbn; by rewrite Hnone).
      rewrite _process_cons.
      erewrite _process_line_next_item
        by (cbn; rewrite dict_get_set_eq; cbn; by rewrite (Hmonthly one_off)).
      rewrite _process_cons.
      erewrite _process_line_next_item
        by (cbn; rewrite dict_get_set_eq; cbn; by rewrite (Hmonthly monthly)).
      reflexivity.
    + cbn. apply dict_get_set_eq.
  - intros lines self i d0 Hrun Hdates.
    pose proof (_process_history _ _ _ i Hrun) as Hhist.
    rewrite Hdates in Hhist. cbn in Hhist. by injection Hhist as <-.
Qed.

Lemma first_record_and_monthly_witness :
  dict.get 3159 (_client_dict (new_Clients report_monthly).1)
  = Some (mkitem monthly 3 (mkdate 2 28 2001)).
Proof.
  apply (proj1 (proj2 first_record_and_monthly) report_monthly _ 3159
           (mkdate 1 1 2001) (mkdate 1 30 2001)).
  - reflexivity.
  - reflexivity.
  - reflexivity.
  - reflexivity.
Defined.

(** C10: a line on which [_set_type] raises has, when the exception
    leaves [_process_line], already been added to the ledger of its year
    and passed to the three highest years, and its subscriber's duration
    has been incremented; the subscriber's type and date, and the entries
    of the other subscribers, are as before the line. *)
Theorem failed_line_keeps_its_effects l self it e :
  dict.get (subscription_id l) (_client_dict self) = Some it →
  _set_type (item_type it) (item_date it) (transaction_date l) = Raise e →
  ∃ self',
    _process_line l self = (self', Raise e)
    ∧ _year_dict self' = add_revenue (year_of l) (amount_usd l) (_year_dict self)
    ∧ dict.get (year_of l) (_year_dict self')
      = Some (default 0 (dict.get (year_of l) (_year_dict self)) + amount_usd l)
    ∧ _last_three_years self' = track_year (year_of l) (_last_three_years self)
    ∧ dict.get (subscription_id l) (_client_dict self')
      = Some (mkitem (item_type it) (item_duration it + 1) (item_date it))
    ∧ ∀ i, i ≠ subscription_id l →
           dict.get i (_client_dict self') = dict.get i (_client_dict self).
Proof.
  intros Hit Hset. eexists. split.
  - rewrite _process_line_eq. cbn zeta. rewrite Hit, Hset. reflexivity.
  - rewrite _process_year_eq. unfold set_client_dict.
    cbn [fst _year_dict _client_dict _last_three_years].
    split_and!; try done.
    + rewrite add_revenue_get. by case_decide.
    + apply dict_get_set_eq.
    + intros i Hi. by apply dict_get_set_ne.
Qed.

Lemma failed_line_keeps_its_effects_witness :
  ∃ self',
    _process_line (mkline 2 3159 990 (mkdate 5 21 1986))
      (new_Clients [mkline 1 3159 990 (mkdate 5 21 1986)]).1
    = (self', Raise InvalidDateTypeError)
    ∧ _year_dict self' = add_revenue 1986 990 [(1986, 990)]
    ∧ dict.get 1986 (_year_dict self') = Some (990 + 990)
    ∧ _last_three_years self' = track_year 1986 [0; 0; 1986]
    ∧ dict.get 3159 (_client_dict self')
      = Some (mkitem one_off (1 + 1) (mkdate 5 21 1986))
    ∧ ∀ i, i ≠ 3159 →
           dict.get i (_client_dict self')
           = dict.get i [(3159, mkitem one_off 1 (mkdate 5 21 1986))].
Proof.
  apply (failed_line_keeps_its_effects
           (mkline 2 3159 990 (mkdate 5 21 1986))
           (new_Clients [mkline 1 3159 990 (mkdate 5 21 1986)]).1
           (mkitem one_off 1 (mkdate 5 21 1986)) InvalidDateTypeError).
  - reflexivity.
  - reflexivity.
Defined.

(** ** The category report *)

Lemma category_list_eq (d : dict.t line_item) ret :
  foldl (λ ret '(key_, val_), ret ++ [category_str key_ val_]) ret d
  = ret ++ ((λ kv, category_str kv.1 kv.2) <$> d).
Proof.
  revert ret. induction d as [|[key_ val_] d IH]; intros ret; cbn.
  - by rewrite app_nil_r.
  - by rewrite IH, <- app_assoc.
Qed.

(** The fields of an entry: text without a comma is one field, and a
    comma after such text ends a field. *)
Lemma split_not_nil sep s : Text.split sep s ≠ [].
Proof.
  destruct s as [|c s]; cbn; [done|].
  case_decide; [done|]. by destruct (Text.split sep s).
Qed.

Lemma split_one_cons sep c s :
  c ≠ sep → Text.split sep s = [s] →
  Text.split sep (String c s) = [String c s].
Proof. intros Hc Hs. cbn. rewrite decide_False by done. by rewrite Hs. Qed.

Lemma split_one_inv sep c s :
  Text.split sep (String c s) = [String c s] →
  c ≠ sep ∧ Text.split sep s = [s].
Proof.
  cbn. case_decide as Hc; [done|].
  destruct (Text.split sep s) as [|field fields] eqn:Hs.
  - by apply split_not_nil in Hs.
  - intros [= -> ->]. done.
Qed.

Lemma split_one_app sep s1 s2 :
  Text.split sep s1 = [s1] → Text.split sep s2 = [s2] →
  Text.split sep (s1 +:+ s2) = [s1 +:+ s2].
Proof.
  intros H1 H2. induction s1 as [|c s1 IH]; [done|].
  apply split_one_inv in H1 as [Hc H1].
  change (String c s1 +:+ s2) with (String c (s1 +:+ s2)).
  apply split_one_cons; [done | by apply IH].
Qed.

Lemma split_field sep s1 s2 :
  Text.split sep s1 = [s1] →
  Text.split sep (s1 +:+ String sep s2) = s1 :: Text.split sep s2.
Proof.
  intros H1. induction s1 as [|c s1 IH].
  - change ("" +:+ String sep s2) with (String sep s2). cbn [Text.split].
    by rewrite decide_True by done.
  - apply split_one_inv in H1 as [Hc H1].
    change (String c s1 +:+ String sep s2)
      with (String c (s1 +:+ String sep s2)).
    cbn [Text.split]. rewrite decide_False by done. by rewrite (IH H1).
Qed.

Lemma split_field_sep sep s1 s2 :
  Text.split sep s1 = [s1] →
  Text.split sep (s1 +:+ String sep EmptyString +:+ s2)
  = s1 :: Text.split sep s2.
Proof.
  intros H1. change (String sep EmptyString +:+ s2) with (String sep s2).
  by apply split_field.
Qed.

(** The decimal text of an integer has no comma. *)
Lemma split_pretty_N_go (x : N) s :
  Text.split ","%char s = [s] →
  Text.split ","%char (pretty_N_go x s) = [pretty_N_go x s].
Proof.
  revert s. induction (N.lt_wf_0 x) as [x _ IH]; intros s Hs.
  destruct (decide (x = 0)%N) as [->|Hx]; [by rewrite pretty_N_go_0|].
  rewrite pretty_N_go_step by lia. apply IH.
  - apply N.div_lt; lia.
  - apply split_one_cons; [|done].
    unfold pretty_N_char. by repeat case_match.
Qed.

Lemma split_pretty_Z (z : Z) :
  Text.split ","%char (pretty z) = [pretty z].
Proof.
  assert (∀ p : positive,
            Text.split ","%char (pretty p) = [pretty p]) as Hpos.
  { intros p. unfold pretty, pretty_positive, pretty, pretty_N.
    rewrite decide_False by done. by apply split_pretty_N_go. }
  destruct z as [|p|p]; [done | apply Hpos |].
  unfold pretty, pretty_Z. by apply (split_one_cons _ "-"%char), Hpos.
Qed.

Lemma dict_get_elem_of {V : Type} (d : dict.t V) k v :
  dict.get k d = Some v → (k, v) ∈ d.
Proof.
  induction d as [|[k0 v0] d IH]; cbn; [done|].
  destruct (Z.eqb_spec k k0) as [->|_].
  - intros [= ->]. by left.
  - intros Hget. right. by apply IH.
Qed.

(** C9: after a run, [get_subscriber_category] raises
    [FileNotProcessedError] exactly when the report had no line.  Otherwise
    it returns one string per entry of [_client_dict], and the dictionary
    has one entry per subscriber of the report.  The string of a subscriber
    is its id, a comma, the label of its type ([daily], [monthly], [yearly]
    or [one-off]), a comma, its duration, a blank and the unit of the type
    ([days], [months], [years] or [time]); split at the commas it gives
    back the id, the label, and the duration with its unit.  The type and
    the duration are those the subscriber's lines, in order, made of its
    entry: the type is the one inferred at the subscriber's last line, the
    duration the number of the subscriber's lines. *)
Theorem subscriber_category_entries lines self :
  new_Clients lines = (self, Return tt) →
  (get_subscriber_category self = Raise FileNotProcessedError ↔ lines = [])
  ∧ (lines ≠ [] →
     get_subscriber_category self
     = Return ((λ kv,
                  pretty kv.1 +:+ ","
                  +:+ match item_type kv.2 with
                      | one_off => "one-off"
                      | daily => "daily"
                      | monthly => "monthly"
                      | yearly => "yearly"
                      end
                  +:+ "," +:+ pretty (item_duration kv.2) +:+ " "
                  +:+ match item_type kv.2 with
                      | one_off => "time"
                      | daily => "days"
                      | monthly => "months"
                      | yearly => "years"
                      end)
               <$> _client_dict self))
  ∧ NoDup (dict.keys (_client_dict self))
  ∧ (∀ i, i ∈ dict.keys (_client_dict self) ↔ i ∈ subscription_id <$> lines)
  ∧ (∀ i, i ∈ subscription_id <$> lines →
      ∃ val_, dict.get i (_client_dict self) = Some val_
        ∧ history None (transaction_date <$> records_of i lines)
          = Return (Some val_)
        ∧ item_duration val_ = Z.of_nat (length (records_of i lines))
        ∧ Some (item_date val_) = last (transaction_date <$> records_of i lines))
  ∧ ∀ report, get_subscriber_category self = Return report →
      length report = length (dict.keys (_client_dict self))
      ∧ ∀ i val_, dict.get i (_client_dict self) = Some val_ →
          ∃ entry, entry ∈ report
            ∧ Text.split ","%char entry
              = [ pretty i;
                  match item_type val_ with
                  | one_off => "one-off"
                  | daily => "daily"
                  | monthly => "monthly"
                  | yearly => "yearly"
                  end;
                  pretty (item_duration val_) +:+ " "
                  +:+ match item_type val_ with
                      | one_off => "time"
                      | daily => "days"
                      | monthly => "months"
                      | yearly => "years"
                      end ].
Proof.
  intros Hrun. unfold new_Clients in Hrun.
  destruct (_process_client_dict_keys _ _ _ Hrun) as [Hnd Hin].
  cbn [_client_dict __init__ dict.keys fmap list_fmap] in Hnd, Hin.
  assert (∀ i, i ∈ dict.keys (_client_dict self) ↔ i ∈ subscription_id <$> lines)
    as Hin'.
  { intros i. rewrite Hin, elem_of_nil. tauto. }
  assert (_client_dict self = [] ↔ lines = []) as Hempty.
  { split.
    - intros Hnil. destruct lines as [|l lines]; [done|]. exfalso.
      assert (subscription_id l ∈ dict.keys (_client_dict self)) as Hl
        by (apply Hin'; rewrite fmap_cons; left).
      rewrite Hnil in Hl. by apply elem_of_nil in Hl.
    - intros ->. by injection Hrun as <-. }
  assert (∀ key_ val_,
            category_str key_ val_
            = pretty key_ +:+ ","
              +:+ match item_type val_ with
                  | one_off => "one-off"
                  | daily => "daily"
                  | monthly => "monthly"
                  | yearly => "yearly"
                  end
              +:+ "," +:+ pretty (item_duration val_) +:+ " "
              +:+ match item_type val_ with
                  | one_off => "time"
                  | daily => "days"
                  | monthly => "months"
                  | yearly => "years"
                  end) as Hstr.
  { intros key_ val_. unfold category_str, type_str, unit_str.
    by destruct (item_type val_). }
  assert (∀ key_ val_,
            Text.split ","%char (category_str key_ val_)
            = [ pretty key_;
                match item_type val_ with
                | one_off => "one-off"
                | daily => "daily"
                | monthly => "monthly"
                | yearly => "yearly"
                end;
                pretty (item_duration val_) +:+ " "
                +:+ match item_type val_ with
                    | one_off => "time"
                    | daily => "days"
                    | monthly => "months"
                    | yearly => "years"
                    end ]) as Hsplit.
  { intros key_ val_. rewrite Hstr.
    rewrite (split_field_sep ","%char) by apply split_pretty_Z. f_equal.
    rewrite (split_field_sep ","%char) by (by destruct (item_type val_)).
    f_equal. apply split_one_app; [apply split_pretty_Z|].
    by destruct (item_type val_). }
  split_and!.
  - unfold get_subscriber_category. rewrite <- Hempty.
    case_bool_decide; [done|]. split; [done | by intros ?].
  - intros Hlines. unfold get_subscriber_category.
    rewrite bool_decide_eq_false_2 by (by rewrite Hempty).
    by rewrite category_list_eq.
  - apply Hnd. constructor.
  - done.
  - intros i Hi. pose proof (_process_history _ _ _ i Hrun) as Hhist.
    cbn [_client_dict __init__ dict.get] in Hhist.
    destruct (proj2 (dict_get_Some_keys _ _) (proj2 (Hin' i) Hi)) as [val_ Hval].
    exists val_. rewrite Hval in Hhist. split; [done|]. split; [done|].
    destruct (transaction_date <$> records_of i lines) as [|d dates] eqn:Hdates;
      [done|].
    apply history_None in Hhist as [Hdur Hdate].
    split; [|done]. rewrite Hdur, <- Hdates. by rewrite length_fmap.
  - intros report. unfold get_subscriber_category.
    case_bool_decide; [done|]. rewrite category_list_eq. intros [= <-].
    cbn [app]. split.
    + unfold dict.keys. by rewrite !length_fmap.
    + intros i val_ Hval. exists (category_str i val_). split; [|apply Hsplit].
      apply list_elem_of_fmap. exists (i, val_).
      split; [done | by apply dict_get_elem_of].
Qed.

(** C9 on a report of two subscribers, one of them monthly with three
    lines: the two strings the report returns. *)
Lemma subscriber_category_entries_witness :
  get_subscriber_category (new_Clients report_monthly).1
  = Return ["3159,monthly,3 months"; "3160,one-off,1 time"].
Proof.
  apply (subscriber_category_entries report_monthly).
  - reflexivity.
  - discriminate.
Defined.

(** ** Further properties of the run *)

(** [_set_type] by cases of the day-delta and of the type so far: a delta
    of 27 days or less makes any subscriber daily, one of 28 to 31 days
    makes it monthly unless it is daily, a longer one makes it yearly
    unless it is daily or monthly; every other case raises
    [InvalidDateTypeError], and a date [strptime] refuses raises
    [ValueError]. *)
Theorem set_type_case_table type_ prev_date current_date :
  match day_delta prev_date current_date with
  | Raise e =>
      e = ValueError ∧ _set_type type_ prev_date current_date = Raise ValueError
  | Return delta =>
      _set_type type_ prev_date current_date
      = if bool_decide (delta <= 0) then Raise InvalidDateTypeError
        else if bool_decide (delta <= 27) then Return daily
        else if bool_decide (delta <= 31) then
          match type_ with
          | daily => Raise InvalidDateTypeError
          | _ => Return monthly
          end
        else
          match type_ with
          | daily | monthly => Raise InvalidDateTypeError
          | _ => Return yearly
          end
  end.
Proof.
  destruct (day_delta prev_date current_date) as [delta|e] eqn:Hdelta.
  - rewrite (_set_type_delta _ _ _ _ Hdelta).
    destruct type_; set_type_cases.
  - by apply _set_type_no_delta.
Qed.

(** The type of a subscriber never becomes coarser. *)
Theorem set_type_never_coarser type_ prev_date current_date type' :
  _set_type type_ prev_date current_date = Return type' →
  rank type_ <= rank type'.
Proof.
  destruct (day_delta prev_date current_date) as [delta|e] eqn:Hdelta.
  - rewrite (_set_type_delta _ _ _ _ Hdelta).
    repeat case_bool_decide; intros [= <-]; destruct type_; cbn; try lia;
      intuition congruence.
  - by destruct (_set_type_no_delta type_ _ _ _ Hdelta) as [_ ->].
Qed.

Lemma set_type_never_coarser_witness :
  rank one_off <= rank monthly.
Proof.
  apply (set_type_never_coarser one_off (mkdate 1 1 2001) (mkdate 1 30 2001)).
  reflexivity.
Defined.

(** [_last_three_years] keeps its three slots, whatever the lines and
    whether or not the run raises: the subscripts 0, 1 and 2 of
    [predict_revenue] are always in range. *)
Theorem last_three_years_length lines self :
  length (_last_three_years self) = 3%nat →
  length (_last_three_years (_process lines self).1) = 3%nat.
Proof.
  assert (∀ year t, length (track_year year t) = length t) as Htrack.
  { intros year t. unfold track_year.
    repeat case_bool_decide; by rewrite ?length_insert. }
  revert self. induction lines as [|l lines IH]; intros self Hlen; [done|].
  rewrite _process_cons.
  pose proof (_process_line_last_three_years l self) as Hl.
  destruct (_process_line l self) as [self1 [[]|e]]; cbn [fst] in *.
  - apply IH. by rewrite Hl, Htrack.
  - by rewrite Hl, Htrack.
Qed.

Lemma last_three_years_length_witness :
  length (_last_three_years (_process report_daily_gap __init__).1) = 3%nat.
Proof. apply (last_three_years_length report_daily_gap). reflexivity. Defined.

(** A run returns exactly when, for every subscriber, each of its lines
    in turn finds a date and a delta [_set_type] accepts; nothing else in
    a line can stop the run. *)
Theorem process_returns_iff lines self :
  (∃ self', _process lines self = (self', Return tt))
  ↔ ∀ i, ∃ entry,
      history (dict.get i (_client_dict self))
              (transaction_date <$> records_of i lines) = Return entry.
Proof.
  split.
  - intros [self' Hrun] i. eexists. by apply _process_history.
  - unfold records_of. revert self.
    induction lines as [|l lines IH]; intros self Hhist; [by eexists|].
    destruct (Hhist (subscription_id l)) as [entry Hl].
    rewrite filter_cons_True, fmap_cons in Hl by done. cbn [history] in Hl.
    destruct (next_item _ _) as [it|] eqn:Hnext; [|done]. cbn in Hl.
    rewrite _process_cons, (_process_line_next_item _ _ _ Hnext).
    apply IH. intros i. cbn [_client_dict set_client_dict].
    rewrite _process_year_eq. cbn [fst _client_dict].
    destruct (decide (subscription_id l = i)) as [<-|Hi].
    + rewrite dict_get_set_eq. eauto.
    + rewrite dict_get_set_ne by done.
      destruct (Hhist i) as [entry' Hi']. rewrite filter_cons_False in Hi' by done.
      eauto.
Qed.

(** A run stops at the first line that raises: the lines before it have
    been processed, those after it have not, and the state and the
    exception are those the line leaves. *)
Theorem process_stops_at_first_exception lines self self' e :
  _process lines self = (self', Raise e)
  ↔ ∃ pre l rest self1,
      lines = pre ++ l :: rest
      ∧ _process pre self = (self1, Return tt)
      ∧ _process_line l self1 = (self', Raise e).
Proof.
  split.
  - revert self. induction lines as [|l lines IH]; intros self; [done|].
    rewrite _process_cons.
    destruct (_process_line l self) as [self1 [[]|e']] eqn:Hl.
    + intros (pre & l' & rest & self2 & -> & Hpre & Hl')%IH.
      exists (l :: pre), l', rest, self2. split_and!; [done | | done].
      by rewrite _process_cons, Hl.
    + intros [= -> ->]. by exists [], l, lines, self.
  - intros (pre & l & rest & self1 & -> & Hpre & Hl).
    eapply _process_app_Raise; [exact Hpre|]. by rewrite _process_cons, Hl.
Qed.

(** The only exceptions that leave a run are [InvalidDateTypeError], from
    the last branch of [_set_type], and [ValueError], from [strptime]. *)
Theorem process_exceptions lines self self' e :
  _process lines self = (self', Raise e) →
  e = InvalidDateTypeError ∨ e = ValueError.
Proof.
  revert self. induction lines as [|l lines IH]; intros self; [done|].
  rewrite _process_cons.
  destruct (_process_line l self) as [self1 [[]|e']] eqn:Hl; [by apply IH|].
  intros [= _ ->]. apply _process_line_Raise in Hl as (it & _ & Hset).
  destruct (day_delta (item_date it) (transaction_date l)) as [delta|e'] eqn:Hd.
  - rewrite (_set_type_delta _ _ _ _ Hd) in Hset. left.
    repeat case_bool_decide; congruence.
  - destruct (_set_type_no_delta (item_type it) _ _ _ Hd) as [_ Hv].
    rewrite Hv in Hset. right. congruence.
Qed.

Lemma process_exceptions_witness :
  InvalidDateTypeError = InvalidDateTypeError
  ∨ InvalidDateTypeError = ValueError.
Proof.
  apply (process_exceptions report_same_day __init__
           (new_Clients report_same_day).1).
  reflexivity.
Defined.

(** ** Counts, order and growth of the two dictionaries *)

Lemma Zsum_fmap_values_set {V : Type} (f : V → Z) (d : dict.t V) k v :
  Zsum (f <$> dict.values (dict.set k v d))
  = Zsum (f <$> dict.values d) - default 0 (f <$> dict.get k d) + f v.
Proof.
  unfold dict.values. induction d as [|[k0 v0] d IH]; cbn.
  - lia.
  - destruct (Z.eqb_spec k k0) as [->|Hk]; cbn; [lia|].
    fold (Zsum (f <$> (dict.set k v d).*2)). rewrite IH. unfold Zsum. lia.
Qed.

(** Every line adds one to the durations, also a line that raises. *)
Lemma _process_line_durations l self :
  Zsum (durations (_process_line l self).1) = Zsum (durations self) + 1.
Proof.
  rewrite _process_line_eq. cbn zeta. unfold durations.
  destruct (dict.get _ _) as [it|] eqn:Hit;
    [destruct (_set_type _ _ _)|]; cbn [fst set_client_dict _client_dict];
    rewrite _process_year_eq; cbn [fst _client_dict];
    rewrite Zsum_fmap_values_set, Hit; cbn; lia.
Qed.

(** The sum of the durations counts the lines [_process_line] was called
    on: all of them when the run returns, those up to and including the
    line that raised when it does not. *)
Theorem durations_count_lines lines self self' o :
  _process lines self = (self', o) →
  match o with
  | Return _ =>
      Zsum (durations self') = Zsum (durations self) + Z.of_nat (length lines)
  | Raise e =>
      ∃ pre l rest self1,
        lines = pre ++ l :: rest
        ∧ _process pre self = (self1, Return tt)
        ∧ (_process_line l self1).2 = Raise e
        ∧ Zsum (durations self')
          = Zsum (durations self) + Z.of_nat (length pre) + 1
  end.
Proof.
  revert self. induction lines as [|l lines IH]; intros self.
  - intros [= <- <-]. cbn. lia.
  - rewrite _process_cons. pose proof (_process_line_durations l self) as Hl.
    destruct (_process_line l self) as [self1 [[]|e]] eqn:Hline; cbn [fst] in Hl.
    + intros Hrun. specialize (IH _ Hrun). destruct o as [[]|e].
      * rewrite IH, Hl. cbn [length]. lia.
      * destruct IH as (pre & l' & rest & self2 & -> & Hpre & Hl' & Hsum).
        exists (l :: pre), l', rest, self2. split_and!; try done.
        -- by rewrite _process_cons, Hline.
        -- rewrite Hsum, Hl. cbn [length]. lia.
    + intros [= <- <-]. exists [], l, lines, self.
      split_and!; try done; [by rewrite Hline | cbn; lia].
Qed.

Lemma durations_count_lines_witness :
  Zsum (durations (new_Clients report_monthly).1)
  = Zsum (durations __init__) + Z.of_nat (length report_monthly).
Proof.
  apply (durations_count_lines report_monthly __init__ _ (Return tt)).
  reflexivity.
Defined.

Lemma dict_keys_set {V : Type} (d : dict.t V) k v :
  dict.keys (dict.set k v d)
  = dict.keys d ++ (if decide (k ∈ dict.keys d) then [] else [k]).
Proof.
  case_decide as Hk.
  - rewrite app_nil_r. by apply dict_keys_set_Some, dict_get_Some_keys.
  - by apply dict_keys_set_None, dict_get_None_keys.
Qed.

Lemma add_revenue_keys year amount d :
  dict.keys (add_revenue year amount d)
  = dict.keys d ++ (if decide (year ∈ dict.keys d) then [] else [year]).
Proof. unfold add_revenue. destruct (dict.get year d); apply dict_keys_set. Qed.

(** What one line does to the two dictionaries, whether or not it raises:
    a key is added at the end or none is, an entry that was there stays,
    with a type at least as fine and a duration at least as long. *)
Lemma _process_line_grows l self :
  dict.keys (_client_dict self)
    `prefix_of` dict.keys (_client_dict (_process_line l self).1)
  ∧ dict.keys (_year_dict self)
      `prefix_of` dict.keys (_year_dict (_process_line l self).1)
  ∧ ∀ i it, dict.get i (_client_dict self) = Some it →
      ∃ it', dict.get i (_client_dict (_process_line l self).1) = Some it'
        ∧ rank (item_type it) <= rank (item_type it')
        ∧ item_duration it <= item_duration it'.
Proof.
  split_and!.
  - rewrite _process_line_eq. cbn zeta.
    destruct (dict.get _ _); [destruct (_set_type _ _ _)|];
      cbn [fst set_client_dict _client_dict]; rewrite _process_year_eq;
      cbn [fst _client_dict]; rewrite dict_keys_set; by apply prefix_app_r.
  - rewrite _process_line_year_dict, add_revenue_keys. by apply prefix_app_r.
  - intros i it Hi. rewrite _process_line_eq. cbn zeta.
    destruct (decide (subscription_id l = i)) as [<-|Hne].
    + rewrite Hi.
      destruct (_set_type _ _ _) as [type_|e] eqn:Hset;
        cbn [fst set_client_dict _client_dict]; rewrite dict_get_set_eq;
        eexists; (split; [done|]); cbn; [|lia].
      split; [|lia].
      destruct (day_delta (item_date it) (transaction_date l)) as [delta|e]
        eqn:Hdelta.
      * rewrite (_set_type_delta _ _ _ _ Hdelta) in Hset.
        revert Hset. repeat case_bool_decide; intros [= <-];
          destruct (item_type it); cbn; try lia; intuition congruence.
      * destruct (_set_type_no_delta (item_type it) _ _ _ Hdelta) as [_ Hv].
        congruence.
    + exists it. split; [|lia].
      destruct (dict.get (subscription_id l) _);
        [destruct (_set_type _ _ _)|];
        cbn [fst set_client_dict _client_dict]; rewrite dict_get_set_ne by done;
        by rewrite _process_year_eq.
Qed.

(** A run never removes a subscriber or a year and never moves one: the
    keys of both dictionaries before it are a prefix of the keys after it.
    Over the run the type of a subscriber only becomes finer (one-off,
    yearly, monthly, daily) and its duration only grows.  This holds also
    when the run raises. *)
Theorem dictionaries_only_grow lines self :
  dict.keys (_client_dict self)
    `prefix_of` dict.keys (_client_dict (_process lines self).1)
  ∧ dict.keys (_year_dict self)
      `prefix_of` dict.keys (_year_dict (_process lines self).1)
  ∧ ∀ i it, dict.get i (_client_dict self) = Some it →
      ∃ it', dict.get i (_client_dict (_process lines self).1) = Some it'
        ∧ rank (item_type it) <= rank (item_type it')
        ∧ item_duration it <= item_duration it'.
Proof.
  revert self. induction lines as [|l lines IH]; intros self.
  - cbn. split_and!; [done | done |]. intros i it Hi. exists it. by split_and!.
  - rewrite _process_cons.
    destruct (_process_line_grows l self) as (Hc & Hy & He).
    destruct (_process_line l self) as [self1 [[]|e]]; cbn [fst] in *.
    + destruct (IH self1) as (Hc' & Hy' & He'). split_and!.
      * by etrans.
      * by etrans.
      * intros i it Hi. destruct (He i it Hi) as (it1 & Hi1 & ? & ?).
        destruct (He' i it1 Hi1) as (it' & Hi' & ? & ?).
        exists it'. split_and!; [done | lia | lia].
    + by split_and!.
Qed.

Lemma first_seen_step (K : list Z) x xs :
  (K ++ (if decide (x ∈ K) then [] else [x]))
  ++ filter (λ y, y ∉ K ++ (if decide (x ∈ K) then [] else [x])) (first_seen xs)
  = K ++ filter (λ y, y ∉ K) (first_seen (x :: xs)).
Proof.
  cbn [first_seen]. case_decide as Hx.
  - rewrite !app_nil_r, filter_cons_False by tauto. f_equal.
    rewrite list_filter_filter. apply list_filter_iff. intros y.
    split; [|tauto]. intros Hy. split; [done|]. by intros ->.
  - rewrite filter_cons_True by done. rewrite <- app_assoc. cbn [app]. do 2 f_equal.
    rewrite list_filter_filter. apply list_filter_iff. intros y.
    rewrite elem_of_app, list_elem_of_singleton. tauto.
Qed.

Lemma ledger_keys_first_seen lines d :
  dict.keys (foldl (λ d l, add_revenue (year_of l) (amount_usd l) d) d lines)
  = dict.keys d
    ++ filter (λ y, y ∉ dict.keys d) (first_seen (year_of <$> lines)).
Proof.
  revert d. induction lines as [|l lines IH]; intros d.
  - cbn. by rewrite app_nil_r.
  - cbn [foldl]. rewrite IH, add_revenue_keys, fmap_cons. apply first_seen_step.
Qed.

Lemma _process_client_dict_first_seen lines self self' :
  _process lines self = (self', Return tt) →
  dict.keys (_client_dict self')
  = dict.keys (_client_dict self)
    ++ filter (λ i, i ∉ dict.keys (_client_dict self))
              (first_seen (subscription_id <$> lines)).
Proof.
  revert self. induction lines as [|l lines IH]; intros self Hrun.
  - injection Hrun as ->. cbn. by rewrite app_nil_r.
  - apply _process_cons_Return in Hrun as (self1 & Hl & Hrun).
    apply _process_line_Return in Hl as (it & _ & Hdict).
    rewrite (IH _ Hrun), Hdict, dict_keys_set, fmap_cons. apply first_seen_step.
Qed.

Lemma dict_lookup_get {V : Type} (d : dict.t V) (n : nat) k v :
  NoDup (dict.keys d) → d !! n = Some (k, v) → dict.get k d = Some v.
Proof.
  unfold dict.keys. revert n. induction d as [|[k0 v0] d IH]; intros n Hnd Hn.
  - done.
  - cbn in Hnd. apply NoDup_cons in Hnd as [Hk0 Hnd].
    destruct n as [|n]; cbn in *.
    + injection Hn as -> ->. by rewrite Z.eqb_refl.
    + destruct (Z.eqb_spec k k0) as [->|_]; [|by eapply IH].
      exfalso. apply Hk0. apply list_elem_of_fmap. exists (k0, v).
      split; [done|]. by eapply list_elem_of_lookup_2.
Qed.

(** After a run, both dictionaries hold their keys in the order in which
    the report first shows them, and [get_subscriber_category] follows
    that order: its n-th string is that of the n-th subscriber to appear
    in the report. *)
Theorem reports_in_order_of_first_line lines self :
  new_Clients lines = (self, Return tt) →
  dict.keys (_client_dict self) = first_seen (subscription_id <$> lines)
  ∧ dict.keys (get_revenue_numbers self) = first_seen (year_of <$> lines)
  ∧ ∀ report, get_subscriber_category self = Return report →
      length report = length (first_seen (subscription_id <$> lines))
      ∧ ∀ (n : nat) i, first_seen (subscription_id <$> lines) !! n = Some i →
          ∃ val_, dict.get i (_client_dict self) = Some val_
                  ∧ report !! n = Some (category_str i val_).
Proof.
  intros Hrun. unfold new_Clients in Hrun.
  assert (∀ l : list Z, filter (λ y, y ∉ @nil Z) l = l) as Hall.
  { intros l. induction l as [|x l IH]; [done|].
    rewrite filter_cons_True by apply not_elem_of_nil. by rewrite IH. }
  assert (dict.keys (_client_dict self) = first_seen (subscription_id <$> lines))
    as Hkeys.
  { rewrite (_process_client_dict_first_seen _ _ _ Hrun). cbn. apply Hall. }
  split_and!; [done | |].
  - unfold get_revenue_numbers. rewrite (_process_year_dict _ _ _ Hrun).
    rewrite ledger_keys_first_seen. cbn. apply Hall.
  - intros report. unfold get_subscriber_category.
    case_bool_decide; [done|]. rewrite category_list_eq. intros [= <-].
    cbn [app]. split.
    + rewrite length_fmap, <- Hkeys. unfold dict.keys. by rewrite length_fmap.
    + intros n i Hn. rewrite <- Hkeys in Hn. unfold dict.keys in Hn.
      rewrite list_lookup_fmap in Hn.
      match type of Hn with
      | fst <$> ?o = _ => destruct o as [[k val_]|] eqn:Hkv; [|done]
      end.
      injection Hn as ->. exists val_. split.
      * eapply dict_lookup_get; [|done].
        destruct (_process_client_dict_keys _ _ _ Hrun) as [Hnd _].
        apply Hnd. constructor.
      * by rewrite list_lookup_fmap, Hkv.
Qed.

Lemma reports_in_order_of_first_line_witness :
  dict.keys (_client_dict (new_Clients report_monthly).1)
  = first_seen (subscription_id <$> report_monthly).
Proof.
  apply (reports_in_order_of_first_line report_monthly). reflexivity.
Defined.

(** ** The three slots below three years, and the order of the lines *)

(** With fewer than three years in the ledger the slots are the initial
    zeros followed by the years of the ledger in ascending order.  Years
    are calendar years: 1 or later. *)
Theorem last_three_years_with_few_years lines self :
  Forall (λ l, 1 <= year_of l) lines →
  new_Clients lines = (self, Return tt) →
  match dict.keys (get_revenue_numbers self) with
  | [] => _last_three_years self = [0; 0; 0]
  | [y] => _last_three_years self = [0; 0; y]
  | [y; y'] => _last_three_years self = [0; Z.min y y'; Z.max y y']
  | _ => True
  end.
Proof.
  unfold get_revenue_numbers. intros Hpos Hrun.
  assert (Forall (λ l, 0 <= year_of l) lines) as Hpos0
    by (eapply Forall_impl; [done | cbn; intros; lia]).
  destruct (new_Clients_year_dict_keys _ _ Hrun) as [Hnd _].
  pose proof (year_dict_keys_nonneg lines self 1 Hpos Hrun) as Hone.
  destruct (new_Clients_tracker_inv _ _ Hpos0 Hrun)
    as (a & b & c & -> & ? & ? & ? & ? & ? & Ha & Hb & Hc & Htop).
  destruct (dict.keys (_year_dict self)) as [|y [|y' [|y'' keys]]]; [| | |done].
  - assert (a = 0) as -> by (destruct (decide (a = 0)); [done|];
      by apply Ha, elem_of_nil in n).
    assert (b = 0) as -> by (destruct (decide (b = 0)); [done|];
      by apply Hb, elem_of_nil in n).
    assert (c = 0) as -> by (destruct (decide (c = 0)); [done|];
      by apply Hc, elem_of_nil in n).
    done.
  - setoid_rewrite list_elem_of_singleton in Ha.
    setoid_rewrite list_elem_of_singleton in Hb.
    setoid_rewrite list_elem_of_singleton in Hc.
    assert (1 <= y) by (apply Hone; by left).
    assert (y = a ∨ y = b ∨ y = c ∨ y < a) by (apply Htop; by left).
    assert (a = 0 ∧ b = 0 ∧ c = y) as (-> & -> & ->) by lia. done.
  - apply NoDup_cons in Hnd as [Hne _].
    rewrite list_elem_of_singleton in Hne.
    setoid_rewrite elem_of_cons in Ha. setoid_rewrite elem_of_cons in Hb.
    setoid_rewrite elem_of_cons in Hc.
    setoid_rewrite list_elem_of_singleton in Ha.
    setoid_rewrite list_elem_of_singleton in Hb.
    setoid_rewrite list_elem_of_singleton in Hc.
    assert (1 <= y) by (apply Hone; by left).
    assert (1 <= y') by (apply Hone; right; by left).
    assert (y = a ∨ y = b ∨ y = c ∨ y < a) by (apply Htop; by left).
    assert (y' = a ∨ y' = b ∨ y' = c ∨ y' < a) by (apply Htop; right; by left).
    assert (a = 0 ∧ b = Z.min y y' ∧ c = Z.max y y') as (-> & -> & ->) by lia.
    done.
Qed.

Lemma last_three_years_with_few_years_witness :
  _last_three_years (new_Clients report_2013_2014).1
  = [0; Z.min 2013 2014; Z.max 2013 2014].
Proof.
  apply (last_three_years_with_few_years report_2013_2014
           (new_Clients report_2013_2014).1).
  - repeat constructor; vm_compute; discriminate.
  - reflexivity.
Defined.

Lemma tracker_inv_unique (seen : Z → Prop) t t' :
  (∀ y, seen y → 0 <= y) →
  tracker_inv seen t → tracker_inv seen t' → t = t'.
Proof.
  intros Hpos (a & b & c & -> & O1 & O2 & O3 & S1 & S2 & Ha & Hb & Hc & Htop)
    (a' & b' & c' & -> & O1' & O2' & O3' & S1' & S2' & Ha' & Hb' & Hc' & Htop').
  assert (a ≠ 0 → a = a' ∨ a = b' ∨ a = c' ∨ a < a') as Ta by (intros; apply Htop'; eauto).
  assert (b ≠ 0 → b = a' ∨ b = b' ∨ b = c' ∨ b < a') as Tb by (intros; apply Htop'; eauto).
  assert (c ≠ 0 → c = a' ∨ c = b' ∨ c = c' ∨ c < a') as Tc by (intros; apply Htop'; eauto).
  assert (a' ≠ 0 → a' = a ∨ a' = b ∨ a' = c ∨ a' < a) as Ta' by (intros; apply Htop; eauto).
  assert (b' ≠ 0 → b' = a ∨ b' = b ∨ b' = c ∨ b' < a) as Tb' by (intros; apply Htop; eauto).
  assert (c' ≠ 0 → c' = a ∨ c' = b ∨ c' = c ∨ c' < a) as Tc' by (intros; apply Htop; eauto).
  clear Hpos Ha Hb Hc Htop Ha' Hb' Hc' Htop'.
  assert (c = c') as <- by (clear Ta Tb Ta' Tb' S1 S2 S1' S2'; lia).
  assert (b = b') as <- by (clear Ta Ta' Tc Tc' S1 S1'; lia).
  assert (a = a') as <- by (clear Tb Tb' Tc Tc'; lia).
  done.
Qed.

Lemma Zsum_Permutation l l' : l ≡ₚ l' → Zsum l = Zsum l'.
Proof.
  induction 1 as [|x l l' _ IH|x y l|l l' l'' _ IH1 _ IH2];
    rewrite ?Zsum_cons; (done || lia).
Qed.

(** The revenue of every year, the three slots and the forecast do not
    depend on the order of the lines: two reports with the same lines in
    any order, both processed without an exception, give the same of each.
    Years are those of dates: not negative. *)
Theorem revenue_ignores_line_order lines lines' self self' :
  lines ≡ₚ lines' →
  Forall (λ l, 0 <= year_of l) lines →
  new_Clients lines = (self, Return tt) →
  new_Clients lines' = (self', Return tt) →
  (∀ Y, dict.get Y (get_revenue_numbers self)
        = dict.get Y (get_revenue_numbers self'))
  ∧ _last_three_years self = _last_three_years self'
  ∧ predict_revenue self = predict_revenue self'.
Proof.
  unfold get_revenue_numbers. intros Hperm Hpos Hrun Hrun'.
  assert (Forall (λ l, 0 <= year_of l) lines') as Hpos'
    by (by rewrite <- Hperm).
  assert (∀ Y, dict.get Y (_year_dict self) = dict.get Y (_year_dict self'))
    as Hget.
  { intros Y. unfold new_Clients in *.
    rewrite (_process_year_dict _ _ _ Hrun), (_process_year_dict _ _ _ Hrun').
    rewrite !ledger_get. cbn [_year_dict __init__ dict.get].
    assert (in_year Y lines ≡ₚ in_year Y lines') as Hin
      by (unfold in_year; by rewrite Hperm).
    destruct (in_year Y lines) as [|l ls] eqn:E1;
      destruct (in_year Y lines') as [|l' ls'] eqn:E2.
    - done.
    - by apply Permutation_nil_cons in Hin.
    - symmetry in Hin. by apply Permutation_nil_cons in Hin.
    - f_equal. f_equal. apply Zsum_Permutation. by rewrite Hin. }
  assert (_last_three_years self = _last_three_years self') as Hslots.
  { apply (tracker_inv_unique (λ y, y ∈ dict.keys (_year_dict self))).
    - by apply (year_dict_keys_nonneg lines).
    - by apply (new_Clients_tracker_inv lines).
    - eapply tracker_inv_iff; [|by apply (new_Clients_tracker_inv lines')].
      intros y. cbn beta. by rewrite <- !dict_get_Some_keys, Hget. }
  split_and!; [done | done |].
  unfold predict_revenue, dict.item. by rewrite Hslots, !Hget.
Qed.

Lemma revenue_ignores_line_order_witness :
  predict_revenue (new_Clients report_2012_2014).1
  = predict_revenue (new_Clients (rev report_2012_2014)).1.
Proof.
  apply (revenue_ignores_line_order report_2012_2014 (rev report_2012_2014)).
  - apply Permutation_rev.
  - repeat constructor; vm_compute; discriminate.
  - reflexivity.
  - reflexivity.
Defined.

(** ** What the extrema report says about the ledger *)

Lemma elem_of_deltas year_dict Y rev_prev rev_end :
  dict.get Y year_dict = Some rev_prev →
  dict.get (Y + 1) year_dict = Some rev_end →
  (rev_end - rev_prev, Y + 1) ∈ deltas year_dict.
Proof.
  intros Hprev Hend. unfold deltas. apply list_elem_of_omap. exists Y. split.
  - apply dict_get_Some_keys. eauto.
  - by rewrite Hend, Hprev.
Qed.

Lemma deltas_elem_of year_dict diff year :
  (diff, year) ∈ deltas year_dict →
  ∃ rev_prev rev_end,
    dict.get (year - 1) year_dict = Some rev_prev
    ∧ dict.get year year_dict = Some rev_end
    ∧ diff = rev_end - rev_prev.
Proof.
  unfold deltas. intros (Y & _ & HY)%list_elem_of_omap.
  destruct (dict.get (Y + 1) year_dict) as [rev_end|] eqn:Hend; [|done].
  destruct (dict.get Y year_dict) as [rev_prev|] eqn:Hprev; [|done].
  cbn in HY. injection HY as <- <-. exists rev_prev, rev_end.
  replace (Y + 1 - 1) with Y by lia. done.
Qed.

Lemma first_greatest_bounds (qualifies : Z → Prop) (size : Z → Z) pairs e :
  first_greatest qualifies size pairs e →
  (e.2 = NA → e.1 = 0 ∧ ∀ p, p ∈ pairs → ¬ qualifies p.1)
  ∧ (∀ year, e.2 = Year year →
       (e.1, year) ∈ pairs ∧ qualifies e.1
       ∧ ∀ p, p ∈ pairs → qualifies p.1 → size p.1 <= size e.1).
Proof.
  intros [[-> Hnone]|(pre & diff & y & post & -> & -> & Hq & Hpre & Hpost)]; cbn.
  - split; [|done]. intros _. split; [done|].
    intros p Hp. by eapply Forall_forall in Hnone.
  - split; [done|]. intros year [= <-]. split_and!; [|done|].
    + apply elem_of_app. right. by left.
    + intros p [Hp|[->|Hp]%elem_of_cons]%elem_of_app Hqp.
      * eapply Forall_forall in Hpre; [|done]. apply Hpre in Hqp. lia.
      * done.
      * eapply Forall_forall in Hpost; [|done]. by apply Hpost.
Qed.

(** What [get_revenue_extrema] reports is true of the ledger: every change
    of revenue from a year to the next lies between the loss and the growth
    it reports, and a growth or loss reported with a year is the change of
    revenue from the year before to that year, above 0 for the growth and
    below 0 for the loss. *)
Theorem revenue_extrema_bound_every_change self growth_ loss_ :
  revenue_extrema self = Return (growth_, loss_) →
  (∀ Y rev_prev rev_end,
     dict.get Y (get_revenue_numbers self) = Some rev_prev →
     dict.get (Y + 1) (get_revenue_numbers self) = Some rev_end →
     loss_.1 <= rev_end - rev_prev <= growth_.1)
  ∧ (∀ year, growth_.2 = Year year →
       ∃ rev_prev rev_end,
         dict.get (year - 1) (get_revenue_numbers self) = Some rev_prev
         ∧ dict.get year (get_revenue_numbers self) = Some rev_end
         ∧ growth_.1 = rev_end - rev_prev ∧ 0 < growth_.1)
  ∧ (∀ year, loss_.2 = Year year →
       ∃ rev_prev rev_end,
         dict.get (year - 1) (get_revenue_numbers self) = Some rev_prev
         ∧ dict.get year (get_revenue_numbers self) = Some rev_end
         ∧ loss_.1 = rev_end - rev_prev ∧ loss_.1 < 0).
Proof.
  unfold get_revenue_numbers, revenue_extrema. intros Hloop.
  destruct (extrema_loop_first_greatest (_year_dict self)
              (dict.keys (_year_dict self)) [] (0, NA) (0, NA))
    as (growth' & loss' & Hloop' & Hg & Hl);
    [done | apply first_greatest_nil | apply first_greatest_nil |].
  assert (Return (growth', loss') = Return (growth_, loss_)) as [= -> ->]
    by (etrans; [symmetry; exact Hloop' | exact Hloop]).
  cbn [app] in Hg, Hl. fold (deltas (_year_dict self)) in Hg, Hl.
  apply first_greatest_bounds in Hg as [Hg0 Hg1].
  apply first_greatest_bounds in Hl as [Hl0 Hl1].
  split_and!.
  - intros Y rev_prev rev_end Hprev Hend.
    pose proof (elem_of_deltas _ _ _ _ Hprev Hend) as Hin. split.
    + destruct (loss_.2) as [|year] eqn:Hyear.
      * destruct (Hl0 eq_refl) as [-> Hno]. apply Hno in Hin. cbn in Hin. lia.
      * destruct (Hl1 year eq_refl) as (_ & Hq & Hmax).
        destruct (decide (rev_end - rev_prev < 0)) as [Hneg|]; [|lia].
        specialize (Hmax _ Hin Hneg). cbn in Hmax. lia.
    + destruct (growth_.2) as [|year] eqn:Hyear.
      * destruct (Hg0 eq_refl) as [-> Hno]. apply Hno in Hin. cbn in Hin. lia.
      * destruct (Hg1 year eq_refl) as (_ & Hq & Hmax).
        destruct (decide (0 < rev_end - rev_prev)) as [Hp|]; [|lia].
        specialize (Hmax _ Hin Hp). cbn in Hmax. lia.
  - intros year Hyear. destruct (Hg1 year Hyear) as (Hin & Hq & _).
    apply deltas_elem_of in Hin as (rev_prev & rev_end & ? & ? & ?). eauto 6.
  - intros year Hyear. destruct (Hl1 year Hyear) as (Hin & Hq & _).
    apply deltas_elem_of in Hin as (rev_prev & rev_end & ? & ? & ?). eauto 6.
Qed.

Lemma revenue_extrema_bound_every_change_witness :
  (∀ Y rev_prev rev_end,
     dict.get Y (get_revenue_numbers (new_Clients report_2010_2012).1)
     = Some rev_prev →
     dict.get (Y + 1) (get_revenue_numbers (new_Clients report_2010_2012).1)
     = Some rev_end →
     -50 <= rev_end - rev_prev <= 200)
  ∧ (∀ year, Year 2011 = Year year →
       ∃ rev_prev rev_end,
         dict.get (year - 1) (get_revenue_numbers (new_Clients report_2010_2012).1)
         = Some rev_prev
         ∧ dict.get year (get_revenue_numbers (new_Clients report_2010_2012).1)
           = Some rev_end
         ∧ 200 = rev_end - rev_prev ∧ 0 < 200)
  ∧ (∀ year, Year 2012 = Year year →
       ∃ rev_prev rev_end,
         dict.get (year - 1) (get_revenue_numbers (new_Clients report_2010_2012).1)
         = Some rev_prev
         ∧ dict.get year (get_revenue_numbers (new_Clients report_2010_2012).1)
           = Some rev_end
         ∧ -50 = rev_end - rev_prev ∧ -50 < 0).
Proof.
  apply (revenue_extrema_bound_every_change (new_Clients report_2010_2012).1
           (200, Year 2011) (-50, Year 2012)).
  reflexivity.
Defined.

(** Years that are not next to each other are never compared: when no
    year of the ledger is followed by the next one (an empty ledger, a
    single year, years with gaps between them), the report has ['N/A'] for
    growth and for loss. *)
Theorem revenue_extrema_without_consecutive_years self :
  (∀ Y, Y ∈ dict.keys (get_revenue_numbers self) →
        Y + 1 ∉ dict.keys (get_revenue_numbers self)) →
  get_revenue_extrema self
  = Return "Highest growth: (0, 'N/A'). Highest loss: (0, 'N/A').".
Proof.
  unfold get_revenue_numbers. intros Hgap.
  assert (∀ years acc, (∀ Y, Y ∈ years → Y ∈ dict.keys (_year_dict self)) →
            extrema_loop (_year_dict self) acc years = Return acc) as Hloop.
  { induction years as [|Y years IH]; intros [growth_ loss_] Hin; [done|].
    cbn [extrema_loop]. unfold extrema_step, dict.mem.
    assert (dict.get (Y + 1) (_year_dict self) = None) as ->.
    { apply dict_get_None_keys, Hgap, Hin. by left. }
    cbn. apply IH. intros Y' HY'. apply Hin. by right. }
  unfold get_revenue_extrema, revenue_extrema. by rewrite Hloop.
Qed.

Lemma revenue_extrema_without_consecutive_years_witness :
  get_revenue_extrema (new_Clients [mkline 1 501 100 (mkdate 3 14 2010);
                                    mkline 2 502 300 (mkdate 6 2 2012)]).1
  = Return "Highest growth: (0, 'N/A'). Highest loss: (0, 'N/A').".
Proof.
  apply revenue_extrema_without_consecutive_years.
  change (dict.keys _) with [2010; 2012].
  intros Y. rewrite !elem_of_cons, !elem_of_nil. lia.
Defined.

(** ** The text level and the lines it stands for *)

Section text_level.
Variables (int : string → outcome Z) (strip : string → string)
          (strptime : string → outcome Z).

Lemma text_process_line_eq line self :
  Text._process_line int strip strptime line self =
  match Text._split_line int strip line with
  | Text.Fail e => (self, Text.Fail e)
  | Text.Done (_id, _amount, _year, _date) =>
      let self1 :=
        Text.set_last_three_years (track_year _year)
          (Text.set_year_dict (add_revenue _year _amount) self) in
      match dict.get _id (Text._client_dict self) with
      | None =>
          (Text.set_client_dict
             (dict.set _id (Text.mkitem one_off 1 _date)) self1,
           Text.Done tt)
      | Some it =>
          match Text._set_type strptime (Text.item_type it)
                  (Text.item_date it) _date with
          | Return type_ =>
              (Text.set_client_dict
                 (dict.set _id
                    (Text.mkitem type_ (Text.item_duration it + 1) _date))
                 self1,
               Text.Done tt)
          | Raise e =>
              (Text.set_client_dict
                 (dict.set _id
                    (Text.mkitem (Text.item_type it) (Text.item_duration it + 1)
                       (Text.item_date it)))
                 self1,
               Text.Fail (Text.Builtin e))
          end
      end
  end.
Proof.
  unfold Text._process_line, Text._process_year.
  unfold mbind, Text.method_bind, Text.gets, Text.modify, Text.lift.
  destruct (Text._split_line int strip line) as [[[[_id _amount] _year] _date]|e];
    [|done].
  cbn. destruct (dict.get _ _) as [it|]; [|done].
  cbn. destruct (Text._set_type _ _ _ _); [|done].
  unfold Text.set_client_dict; cbn. by rewrite !dict_set_set.
Qed.

Lemma text_for_lines_cons line rest self :
  Text.for_lines int strip strptime (line :: rest) self =
  match Text._process_line int strip strptime line self with
  | (self1, Text.Done _) => Text.for_lines int strip strptime rest self1
  | (self1, Text.Fail e) => (self1, Text.Fail e)
  end.
Proof. reflexivity. Qed.

Lemma text_split_line_reads text l :
  reads int strip strptime text l →
  ∃ _date,
    Text._split_line int strip text
    = Text.Done (subscription_id l, amount_usd l, year_of l, _date)
    ∧ strptime _date = datetime.strptime (transaction_date l).
Proof.
  intros (f0 & f1 & f2 & f3 & rest & Hsplit & H1 & H2 & Hyear & Hdate).
  exists f3. split; [|done]. unfold Text._split_line. rewrite Hsplit.
  cbn -[Text.slice_from]. rewrite H1. cbn -[Text.slice_from].
  rewrite H2. cbn -[Text.slice_from]. by rewrite Hyear.
Qed.

Lemma text_set_type_same type_ prev prev' current current' :
  strptime prev = datetime.strptime prev' →
  strptime current = datetime.strptime current' →
  Text._set_type strptime type_ prev current = _set_type type_ prev' current'.
Proof. unfold Text._set_type, _set_type. by intros -> ->. Qed.

End text_level.

Section related_dicts.
Context {V V' : Type} (P : V → V' → Prop).

Lemma related_dict_get (d : dict.t V) (d' : dict.t V') k :
  Forall2 (λ kv kv', kv.1 = kv'.1 ∧ P kv.2 kv'.2) d d' →
  match dict.get k d, dict.get k d' with
  | Some v, Some v' => P v v'
  | None, None => True
  | _, _ => False
  end.
Proof.
  induction 1 as [|[k0 v] [k0' v'] d d' [Hk Hv] _ IH]; cbn in *; [done|].
  subst k0'. by destruct (Z.eqb_spec k k0).
Qed.

Lemma related_dict_set (d : dict.t V) (d' : dict.t V') k v v' :
  Forall2 (λ kv kv', kv.1 = kv'.1 ∧ P kv.2 kv'.2) d d' → P v v' →
  Forall2 (λ kv kv', kv.1 = kv'.1 ∧ P kv.2 kv'.2)
          (dict.set k v d) (dict.set k v' d').
Proof.
  intros Hd Hv.
  induction Hd as [|[k0 w] [k0' w'] d d' [Hk Hw] Hd IH]; cbn in *.
  - by repeat constructor.
  - subst k0'. destruct (Z.eqb_spec k k0); by repeat constructor.
Qed.

End related_dicts.

Section refinement.
Variables (int : string → outcome Z) (strip : string → string)
          (strptime : string → outcome Z).

Lemma text_process_line_same text l text_self self :
  reads int strip strptime text l →
  same_state strptime text_self self →
  same_state strptime
    (Text._process_line int strip strptime text text_self).1
    (_process_line l self).1
  ∧ same_result (Text._process_line int strip strptime text text_self).2
                (_process_line l self).2.
Proof.
  intros (_date & Hsplit & Hdate)%text_split_line_reads (Hy & Ht & Hc).
  rewrite text_process_line_eq, _process_line_eq, Hsplit. cbn zeta.
  rewrite _process_year_eq. cbn [fst].
  set (P := (λ tit it, Text.item_type tit = item_type it
                 ∧ Text.item_duration tit = item_duration it
                 ∧ strptime (Text.item_date tit)
                   = datetime.strptime (item_date it))).
  pose proof (related_dict_get P _ _ (subscription_id l) Hc) as Hget.
  destruct (dict.get _ (Text._client_dict text_self)) as [tit|];
    destruct (dict.get _ (_client_dict self)) as [it|]; try done.
  - destruct Hget as (Htype & Hdur & Hprev).
    rewrite (text_set_type_same strptime _ _ (item_date it) _
               (transaction_date l)), Htype by done.
    destruct (_set_type _ _ _) as [type_|e]; cbn; (split; [|done]);
      unfold same_state; cbn; rewrite Hy, Ht; (split_and!; [done | done |]);
      apply (related_dict_set P _ _ (subscription_id l)); try done;
      unfold P; cbn; by rewrite ?Hdur, ?Htype.
  - cbn. split; [|done]. unfold same_state; cbn. rewrite Hy, Ht.
    split_and!; [done | done |].
    by apply (related_dict_set P _ _ (subscription_id l)).
Qed.

Lemma text_for_lines_same texts lines text_self self :
  Forall2 (reads int strip strptime) texts lines →
  same_state strptime text_self self →
  same_state strptime
    (Text.for_lines int strip strptime texts text_self).1
    (_process lines self).1
  ∧ same_result (Text.for_lines int strip strptime texts text_self).2
                (_process lines self).2.
Proof.
  intros Hreads. revert text_self self.
  induction Hreads as [|text l texts lines Hl _ IH]; intros text_self self Hsame.
  - by split.
  - destruct (text_process_line_same _ _ _ _ Hl Hsame) as [Hsame1 Hres].
    rewrite text_for_lines_cons, _process_cons.
    destruct (Text._process_line _ _ _ _ _) as [text_self1 [[]|e]];
      destruct (_process_line l self) as [self1 [[]|e']]; cbn in Hres, Hsame1;
      try done.
    + by apply IH.
    + by destruct e.
Qed.

(** The run on the text of a file is the run on the lines its text stands
    for.  When the built-ins read every line of the file after its header
    as a line of the report, the constructor leaves the same ledger, the
    same three slots and the same subscribers with the same types and
    durations as [_process] on those lines, and returns when it returns or
    raises the exception it raises.  The header may be missing when there
    is a line to take its place. *)
Theorem text_of_file_refines lines file texts :
  Forall2 (reads int strip strptime) texts lines →
  (∃ header, file = header :: texts ∧ Text.slice_to 2 header = "Id")
  ∨ (file = texts ∧ texts ≠ [] ∧ Text.slice_to 2 (hd EmptyString texts) ≠ "Id") →
  same_state strptime (Text.new_Clients int strip strptime file).1
                      (new_Clients lines).1
  ∧ same_result (Text.new_Clients int strip strptime file).2
                (new_Clients lines).2.
Proof.
  intros Hreads Hfile.
  assert (same_state strptime Text.__init__ __init__) as Hinit
    by (unfold same_state; cbn; by split_and!).
  unfold Text.new_Clients, new_Clients, Text._process.
  destruct Hfile as [(header & -> & Hid)|(-> & Hne & Hid)].
  - cbn [hd tail]. rewrite bool_decide_eq_false_2 by (by intros ?).
    by apply text_for_lines_same.
  - destruct texts as [|text texts]; [done|]. cbn [hd tail] in *.
    rewrite bool_decide_eq_true_2 by done.
    by apply (text_for_lines_same (text :: texts)).
Qed.

(** A line the built-ins cannot take apart changes nothing: when
    [_split_line] raises, [_process_line] raises the same exception and
    leaves the object as it was.  A line with fewer than four fields is
    such a line, and a line without a comma raises [IndexError]. *)
Theorem unreadable_line_changes_nothing line text_self :
  (∀ e, Text._split_line int strip line = Text.Fail e →
        Text._process_line int strip strptime line text_self
        = (text_self, Text.Fail e))
  ∧ ((length (Text.split ","%char (strip line)) < 4)%nat →
     ∃ e, Text._split_line int strip line = Text.Fail e)
  ∧ ((length (Text.split ","%char (strip line)) < 2)%nat →
     Text._split_line int strip line = Text.Fail Text.IndexError).
Proof.
  split_and!.
  - intros e He. by rewrite text_process_line_eq, He.
  - unfold Text._split_line.
    destruct (Text.split _ _) as [|f0 [|f1 [|f2 [|f3 rest]]]]; cbn [length];
      try lia; intros _; cbn -[Text.slice_from]; eauto;
      destruct (int f1); cbn -[Text.slice_from]; eauto;
      destruct (int f2); cbn -[Text.slice_from]; eauto.
  - unfold Text._split_line.
    destruct (Text.split _ _) as [|f0 [|f1 rest]]; cbn [length]; (lia || done).
Qed.

(** The first line of the file.  A file without any line makes the
    constructor raise [IndexError], [strip] leaving the empty text empty; a
    file with a header and nothing else gives the object of [__init__]; a
    file with a header gives what the file without it gives, when a line
    follows the header and does not itself start with [Id]; and a first line
    that starts with [Id] is never processed. *)
Theorem first_line_of_file :
  (strip EmptyString = EmptyString →
   Text.new_Clients int strip strptime []
   = (Text.__init__, Text.Fail Text.IndexError))
  ∧ (∀ header, Text.slice_to 2 header = "Id" →
       Text.new_Clients int strip strptime [header]
       = (Text.__init__, Text.Done tt))
  ∧ (∀ header data,
       Text.slice_to 2 header = "Id" → data ≠ [] →
       Text.slice_to 2 (hd EmptyString data) ≠ "Id" →
       Text.new_Clients int strip strptime (header :: data)
       = Text.new_Clients int strip strptime data)
  ∧ (∀ first rest,
       Text.slice_to 2 first = "Id" →
       Text.new_Clients int strip strptime (first :: rest)
       = Text.for_lines int strip strptime rest Text.__init__).
Proof.
  assert (∀ first rest, Text.slice_to 2 first = "Id" →
            Text.new_Clients int strip strptime (first :: rest)
            = Text.for_lines int strip strptime rest Text.__init__) as Hskip.
  { intros first rest Hid. unfold Text.new_Clients, Text._process. cbn [hd tail].
    by rewrite bool_decide_eq_false_2 by (by intros ?). }
  split_and!; [| | |done].
  - intros Hstrip. unfold Text.new_Clients, Text._process. cbn [hd tail].
    rewrite bool_decide_eq_true_2 by done.
    unfold mbind, Text.method_bind.
    rewrite text_process_line_eq. unfold Text._split_line.
    by rewrite Hstrip.
  - intros header Hid. by rewrite Hskip.
  - intros header data Hid Hne Hdata. rewrite Hskip by done.
    destruct data as [|line data]; [done|]. cbn [hd] in Hdata.
    unfold Text.new_Clients, Text._process. cbn [hd tail].
    by rewrite bool_decide_eq_true_2 by done.
Qed.

End refinement.

Lemma text_of_file_refines_witness :
  same_state plain_strptime
    (Text.new_Clients plain_int plain_strip plain_strptime file_monthly).1
    (new_Clients report_monthly).1
  ∧ same_result
      (Text.new_Clients plain_int plain_strip plain_strptime file_monthly).2
      (new_Clients report_monthly).2.
Proof.
  apply (text_of_file_refines plain_int plain_strip plain_strptime
           report_monthly file_monthly (tail file_monthly)).
  - unfold file_monthly, report_monthly. cbn [tail].
    repeat (constructor; [do 5 eexists; split_and!; reflexivity|]).
    constructor.
  - left. eexists. split; reflexivity.
Defined.

Lemma first_line_of_file_witness :
  Text.new_Clients plain_int plain_strip plain_strptime []
  = (Text.__init__, Text.Fail Text.IndexError).
Proof.
  apply (proj1 (first_line_of_file plain_int plain_strip plain_strptime)).
  reflexivity.
Defined.

Section text_reports.
Variables (int : string → outcome Z) (strip : string → string)
          (strptime : string → outcome Z).

Lemma text_new_Clients_for_lines file texts :
  (∃ header, file = header :: texts ∧ Text.slice_to 2 header = "Id")
  ∨ (file = texts ∧ texts ≠ [] ∧ Text.slice_to 2 (hd EmptyString texts) ≠ "Id") →
  Text.new_Clients int strip strptime file
  = Text.for_lines int strip strptime texts Text.__init__.
Proof.
  unfold Text.new_Clients, Text._process.
  intros [(header & -> & Hid)|(-> & Hne & Hid)].
  - cbn [hd tail]. by rewrite bool_decide_eq_false_2 by (by intros ?).
  - destruct texts as [|text texts]; [done|]. cbn [hd tail] in *.
    by rewrite bool_decide_eq_true_2 by done.
Qed.

(** The revenue numbers of a file.  When the built-ins read the lines of
    the file after its header as the lines [lines] and the constructor
    returns, the ledger it leaves has, for each year, the sum of the
    amounts of the lines of that year, and no entry for a year without a
    line; its values add up to the amounts of all the lines. *)
Theorem text_revenue_numbers_are_yearly_sums lines file texts text_self :
  Forall2 (reads int strip strptime) texts lines →
  (∃ header, file = header :: texts ∧ Text.slice_to 2 header = "Id")
  ∨ (file = texts ∧ texts ≠ [] ∧ Text.slice_to 2 (hd EmptyString texts) ≠ "Id") →
  Text.new_Clients int strip strptime file = (text_self, Text.Done tt) →
  Zsum (dict.values (Text._year_dict text_self)) = Zsum (amount_usd <$> lines)
  ∧ ∀ Y, dict.get Y (Text._year_dict text_self)
         = match in_year Y lines with
           | [] => None
           | ls => Some (Zsum (amount_usd <$> ls))
           end.
Proof.
  intros Hreads Hfile Hrun.
  rewrite (text_new_Clients_for_lines _ _ Hfile) in Hrun.
  assert (same_state strptime Text.__init__ __init__) as Hinit
    by (unfold same_state; cbn; by split_and!).
  destruct (text_for_lines_same int strip strptime _ _ _ _ Hreads Hinit)
    as [(Hy & _ & _) Hres].
  rewrite Hrun in Hy, Hres. cbn [fst snd] in Hy, Hres.
  destruct (_process lines __init__) as [self [[]|e]] eqn:Hlines; [|done].
  cbn [fst] in Hy. rewrite Hy, (_process_year_dict _ _ _ Hlines).
  cbn [_year_dict __init__]. split.
  - rewrite ledger_Zsum. cbn. lia.
  - intros Y. rewrite ledger_get. cbn [dict.get].
    by destruct (in_year Y lines).
Qed.

End text_reports.

Lemma text_revenue_numbers_are_yearly_sums_witness :
  Zsum (dict.values
          (Text._year_dict
             (Text.new_Clients plain_int plain_strip plain_strptime
                file_monthly).1))
  = Zsum (amount_usd <$> report_monthly)
  ∧ ∀ Y, dict.get Y
           (Text._year_dict
              (Text.new_Clients plain_int plain_strip plain_strptime
                 file_monthly).1)
         = match in_year Y report_monthly with
           | [] => None
           | ls => Some (Zsum (amount_usd <$> ls))
           end.
Proof.
  apply (text_revenue_numbers_are_yearly_sums plain_int plain_strip
           plain_strptime report_monthly file_monthly (tail file_monthly)).
  - unfold file_monthly, report_monthly. cbn [tail].
    repeat (constructor; [do 5 eexists; split_and!; reflexivity|]).
    constructor.
  - left. eexists. split; reflexivity.
  - reflexivity.
Defined.
